(** * Booking engine of the spa front-desk console

    A shallow embedding of the booking form page ([src/pages/BookingPage.tsx]),
    of the operations page the application shell renders, of the shell's
    handlers and enrichment of the collections, and of the data model
    ([src/types.ts]), followed by the properties of the room-availability
    check, of the next-free-slot search, of the submission guard, of the
    in-memory collections, of the staff checks and of the timeline's room
    allocation.

    Conventions of the embedding.
    - A JavaScript [number] that holds minutes is a value of [number]: an
      integer or [NaN].  Durations, prices and staff counts are integers [Z].
    - Strings are [string]s of bytes: the UTF-8 encoding of the text.
    - [undefined] and [null] in an optional position are [None].
    - The record store is an interface ([Store]); every statement about a
      handler holds for every store.
    - The user's answer to [window.confirm] and the clock read by
      [Date.now()] are inputs ([Env]). *)

From Stdlib Require Import ZArith List String Ascii Bool Lia PeanoNat.
From Stdlib Require Import Numbers.DecimalString Numbers.DecimalNat.
From Stdlib Require Import Sorting.Permutation.
Import ListNotations.

Open Scope string_scope.
Open Scope Z_scope.

(* ================================================================== *)
(** ** JavaScript numbers and strings, as far as the page uses them *)

Inductive number : Type :=
| NaN
| Num (z : Z).

Definition num_add (a b : number) : number :=
  match a, b with
  | Num x, Num y => Num (x + y)
  | _, _ => NaN
  end.

Definition num_mul (a b : number) : number :=
  match a, b with
  | Num x, Num y => Num (x * y)
  | _, _ => NaN
  end.

(** [Math.max] and [Math.min] of two arguments: [NaN] when either is. *)
Definition Math_max (a b : number) : number :=
  match a, b with
  | Num x, Num y => Num (Z.max x y)
  | _, _ => NaN
  end.

Definition Math_min (a b : number) : number :=
  match a, b with
  | Num x, Num y => Num (Z.min x y)
  | _, _ => NaN
  end.

(** [a < b]: false when either side is [NaN]. *)
Definition num_lt (a b : number) : bool :=
  match a, b with
  | Num x, Num y => x <? y
  | _, _ => false
  end.



(** [Number(s)] on the strings a clock field holds: a run of decimal digits
    is its value and the empty string is 0.  Every other string is [NaN]
    here; JavaScript also reads blanks around the digits, a sign, a fraction,
    an exponent and radix prefixes, none of which a time label carries. *)
Definition Number (s : string) : number :=
  match NilEmpty.uint_of_string s with
  | Some u => Num (Z.of_uint u)
  | None => NaN
  end.

(** [s.split(sep)] for a one-character separator. *)
Fixpoint split (sep : ascii) (s : string) : list string :=
  match s with
  | EmptyString => [EmptyString]
  | String c rest =>
      if Ascii.eqb c sep then EmptyString :: split sep rest
      else match split sep rest with
           | [] => [String c EmptyString]
           | p :: ps => String c p :: ps
           end
  end.

(** [n.toString()] for a natural number. *)
Definition toString (n : nat) : string :=
  NilEmpty.string_of_uint (Nat.to_uint n).

Fixpoint repeat_char (c : ascii) (n : nat) : string :=
  match n with
  | O => EmptyString
  | S k => String c (repeat_char c k)
  end.

(** [s.padStart(width, c)] for a one-character filler. *)
Definition padStart (width : nat) (c : ascii) (s : string) : string :=
  repeat_char c (width - String.length s) ++ s.

(** The white space [trim] and [parseInt] skip: the code points U+0009 to
    U+000D, U+0020, U+00A0, U+1680, U+2000 to U+200A, U+2028, U+2029,
    U+202F, U+205F, U+3000 and U+FEFF.  A string holds the UTF-8 bytes of
    the text, so a white-space character is one, two or three bytes long:
    [isWhiteSpace] is the one-byte case. *)
Definition isWhiteSpace (c : ascii) : bool :=
  let n := nat_of_ascii c in
  ((9 <=? n) && (n <=? 13))%nat || (n =? 32)%nat.

(** U+00A0, the bytes C2 A0. *)
Definition isWhiteSpace2 (c1 c2 : ascii) : bool :=
  ((nat_of_ascii c1 =? 194) && (nat_of_ascii c2 =? 160))%nat.

(** U+1680 (E1 9A 80); U+2000 to U+200A, U+2028, U+2029 and U+202F
    (E2 80 80 to 8A, A8, A9, AF); U+205F (E2 81 9F); U+3000 (E3 80 80);
    U+FEFF (EF BB BF). *)
Definition isWhiteSpace3 (c1 c2 c3 : ascii) : bool :=
  let x := nat_of_ascii c1 in
  let y := nat_of_ascii c2 in
  let z := nat_of_ascii c3 in
  ((x =? 225) && (y =? 154) && (z =? 128)
   || (x =? 226) && (y =? 128)
      && ((128 <=? z) && (z <=? 138) || (z =? 168) || (z =? 169) || (z =? 175))
   || (x =? 226) && (y =? 129) && (z =? 159)
   || (x =? 227) && (y =? 128) && (z =? 128)
   || (x =? 239) && (y =? 187) && (z =? 191))%nat.

Fixpoint trimStart (s : string) : string :=
  match s with
  | EmptyString => EmptyString
  | String c1 r1 =>
      if isWhiteSpace c1 then trimStart r1
      else
        match r1 with
        | String c2 r2 =>
            if isWhiteSpace2 c1 c2 then trimStart r2
            else
              match r2 with
              | String c3 r3 =>
                  if isWhiteSpace3 c1 c2 c3 then trimStart r3 else s
              | EmptyString => s
              end
        | EmptyString => s
        end
  end.

(** The string up to the point from which only white space follows. *)
Fixpoint trimEnd (s : string) : string :=
  match s with
  | EmptyString => EmptyString
  | String c rest =>
      match trimStart s with
      | EmptyString => EmptyString
      | String _ _ => String c (trimEnd rest)
      end
  end.

Definition trim (s : string) : string := trimEnd (trimStart s).

Definition isEmptyString (s : string) : bool :=
  match s with
  | EmptyString => true
  | String _ _ => false
  end.

(** [xs.join(sep)]. *)
Fixpoint join (sep : string) (xs : list string) : string :=
  match xs with
  | [] => EmptyString
  | [x] => x
  | x :: rest => x ++ sep ++ join sep rest
  end.

(** [xs.findIndex(p)]; [None] is the source's -1. *)
Fixpoint findIndex {A : Type} (p : A -> bool) (xs : list A) : option nat :=
  match xs with
  | [] => None
  | x :: rest =>
      if p x then Some O
      else match findIndex p rest with
           | Some i => Some (S i)
           | None => None
           end
  end.

(* ================================================================== *)
(** ** Data model ([src/types.ts]) *)

Inductive EmployeeStatus := EMP_ACTIVE | ON_LEAVE | RESIGNED.
Inductive Position := MANAGER | THERAPIST | RECEPTIONIST | SECURITY.
Inductive ServiceCategory := MASSAGE | SKIN_CARE | BODY_CARE | COMBO | OTHER.
Inductive ServiceStatus := SVC_ACTIVE | STOPPED.

Inductive BookingStatus :=
| PENDING
| CONFIRMED
| IN_PROGRESS
| COMPLETED
| CANCELLED.

Definition BookingStatus_eqb (a b : BookingStatus) : bool :=
  match a, b with
  | PENDING, PENDING
  | CONFIRMED, CONFIRMED
  | IN_PROGRESS, IN_PROGRESS
  | COMPLETED, COMPLETED
  | CANCELLED, CANCELLED => true
  | _, _ => false
  end.

Module Employee.
Record t := mk {
  id : string;
  code : string;
  name : string;
  avatar : string;
  position : Position;
  status : EmployeeStatus;
  phone : string;
  email : string;
  bio : option string
}.
End Employee.

Module Service.
Record t := mk {
  id : string;
  code : string;
  name : string;
  image : string;
  category : ServiceCategory;
  duration : Z;
  price : Z;
  staffCount : Z;
  status : ServiceStatus;
  description : string
}.
End Service.

(** [code] is declared a [string]; the object the page builds for an update
    carries none (it is cast to [Booking]), and [generateCode] tests for its
    absence, so the field is optional here. *)
Module Booking.
Record t := mk {
  id : string;
  code : option string;
  customerName : string;
  customerPhone : string;
  serviceId : string;
  serviceName : string;
  staffId : option string;
  staffIds : option (list string);
  staffName : string;
  date : string;
  time : string;
  duration : Z;
  status : BookingStatus;
  notes : option string;
  totalAmount : Z;
  discount : option Z
}.

(** [{ ...b, status: s }]. *)
Definition with_status (b : t) (s : BookingStatus) : t :=
  mk (id b) (code b) (customerName b) (customerPhone b) (serviceId b)
     (serviceName b) (staffId b) (staffIds b) (staffName b) (date b)
     (time b) (duration b) s (notes b) (totalAmount b) (discount b).
End Booking.

(* ================================================================== *)
(** ** Time grid ([generateTimeSlots], [timeToMinutes]) *)

Definition TOTAL_ROOMS : nat := 5.

Module TimeSlot.
Record t := mk {
  time : string;
  hour : string;
  minute : string
}.
End TimeSlot.

(** The inner loop [for (m = 0; m < 60; m += 10)] over the minutes still to
    visit, with its [break] at hour 22 once [m > 0]. *)
Fixpoint minuteLoop (h : nat) (ms : list nat) : list TimeSlot.t :=
  match ms with
  | [] => []
  | m :: rest =>
      if ((h =? 22) && (0 <? m))%nat then []
      else
        let hourStr := toString h in
        let minStr := padStart 2 "0" (toString m) in
        TimeSlot.mk (hourStr ++ ":" ++ minStr) hourStr minStr
          :: minuteLoop h rest
  end.

Definition generateTimeSlots : list TimeSlot.t :=
  flat_map (fun h => minuteLoop h [0; 10; 20; 30; 40; 50]%nat) (seq 10 13).

Definition TIME_SLOTS : list TimeSlot.t := Eval vm_compute in generateTimeSlots.

Definition timeToMinutes (time : string) : number :=
  if isEmptyString time then Num 0
  else
    match map Number (split ":" time) with
    | h :: m :: _ => num_add (num_mul h (Num 60)) m
    | _ => NaN
    end.

(* ================================================================== *)
(** ** The booking page ([src/pages/BookingPage.tsx]) *)

(** The form state: [INITIAL_FORM_DATA]'s shape. *)
Module Form.
Record t := mk {
  customerName : string;
  customerPhone : string;
  serviceId : string;
  staffId : string;
  selectedStaffIds : list string;
  date : string;
  time : string;
  status : BookingStatus;
  notes : string
}.
End Form.

(** What one render of the page sees: its props and its state hooks. *)
Module Page.
Record t := mk {
  bookings : list Booking.t;
  employees : list Employee.t;
  services : list Service.t;
  isEditing : bool;
  currentId : option string;
  formData : Form.t
}.

(** The same render over another booking collection. *)
Definition with_bookings (st : t) (bs : list Booking.t) : t :=
  mk bs (employees st) (services st) (isEditing st) (currentId st)
     (formData st).
End Page.

Module Availability.
Record t := mk {
  isAvailable : bool;
  occupiedCount : nat
}.
End Availability.

(** [b.id === currentId], with [currentId] possibly [null]. *)
Definition idIs (b : Booking.t) (currentId : option string) : bool :=
  match currentId with
  | Some c => String.eqb (Booking.id b) c
  | None => false
  end.

(** The callback of the first filter: bookings of the selected date. *)
Definition onSelectedDate (st : Page.t) (b : Booking.t) : bool :=
  String.eqb (Booking.date b) (Form.date (Page.formData st)).

(** The callback of the second filter, with its two early returns. *)
Definition overlapping (st : Page.t) (checkStart checkEnd : number)
    (b : Booking.t) : bool :=
  if BookingStatus_eqb (Booking.status b) CANCELLED then false
  else if Page.isEditing st && idIs b (Page.currentId st) then false
  else
    let bStart := timeToMinutes (Booking.time b) in
    let bEnd := num_add bStart (Num (Booking.duration b)) in
    num_lt (Math_max checkStart bStart) (Math_min checkEnd bEnd).

(** The list [overlappingBookings] that [getRoomAvailability] builds. *)
Definition overlappingBookings (st : Page.t) (checkTime : string)
    (duration : Z) : list Booking.t :=
  let checkStart := timeToMinutes checkTime in
  let checkEnd := num_add checkStart (Num duration) in
  let dateBookings := filter (onSelectedDate st) (Page.bookings st) in
  filter (overlapping st checkStart checkEnd) dateBookings.

Definition getRoomAvailability (st : Page.t) (checkTime : string)
    (duration : Z) : Availability.t :=
  Availability.mk
    (List.length (overlappingBookings st checkTime duration) <? TOTAL_ROOMS)%nat
    (List.length (overlappingBookings st checkTime duration)).

(** [services.find(s => s.id === formData.serviceId)]. *)
Definition selectedService (st : Page.t) : option Service.t :=
  find (fun s => String.eqb (Service.id s) (Form.serviceId (Page.formData st)))
       (Page.services st).

Module RoomStatus.
Record t := mk {
  isFull : bool;
  nextTime : option string
}.
End RoomStatus.

(** The loop [for (i = startIndex + 1; i < TIME_SLOTS.length; i++)] over the
    slots still to visit; it leaves at the first available one. *)
Fixpoint scanSlots (st : Page.t) (duration : Z) (slots : list TimeSlot.t)
    : option string :=
  match slots with
  | [] => None
  | slot :: rest =>
      let check := getRoomAvailability st (TimeSlot.time slot) duration in
      if Availability.isAvailable check then Some (TimeSlot.time slot)
      else scanSlots st duration rest
  end.

Definition roomStatus (st : Page.t) : RoomStatus.t :=
  match selectedService st with
  | None => RoomStatus.mk false None
  | Some service =>
      let time := Form.time (Page.formData st) in
      if isEmptyString time then RoomStatus.mk false None
      else if Availability.isAvailable
                (getRoomAvailability st time (Service.duration service))
      then RoomStatus.mk false None
      else
        let nextTime :=
          match findIndex (fun t => String.eqb (TimeSlot.time t) time)
                          TIME_SLOTS with
          | Some startIndex =>
              scanSlots st (Service.duration service)
                        (skipn (S startIndex) TIME_SLOTS)
          | None => None
          end in
        RoomStatus.mk true nextTime
  end.

(** *** Opening the form on a booking, and the status selector *)

(** [x || ''] on an optional string. *)
Definition orEmpty (x : option string) : string :=
  match x with
  | Some s => s
  | None => EmptyString
  end.

(** [openEditModal]: the form takes the booking's fields, [currentId] its
    id, and the page is editing. *)
Definition openEditModal (st : Page.t) (booking : Booking.t) : Page.t :=
  let initialSelectedStaffIds :=
    match Booking.staffIds booking with
    | Some (x :: xs) => x :: xs
    | _ =>
        match Booking.staffId booking with
        | Some s => if isEmptyString s then [] else [s]
        | None => []
        end
    end in
  Page.mk (Page.bookings st) (Page.employees st) (Page.services st)
    true (Some (Booking.id booking))
    (Form.mk (Booking.customerName booking) (Booking.customerPhone booking)
       (Booking.serviceId booking) (orEmpty (Booking.staffId booking))
       initialSelectedStaffIds (Booking.date booking) (Booking.time booking)
       (Booking.status booking) (orEmpty (Booking.notes booking))).

(** The status selector's [onChange]: [{ ...formData, status }]. *)
Definition setFormStatus (st : Page.t) (status : BookingStatus) : Page.t :=
  let f := Page.formData st in
  Page.mk (Page.bookings st) (Page.employees st) (Page.services st)
    (Page.isEditing st) (Page.currentId st)
    (Form.mk (Form.customerName f) (Form.customerPhone f) (Form.serviceId f)
       (Form.staffId f) (Form.selectedStaffIds f) (Form.date f) (Form.time f)
       status (Form.notes f)).

(** *** [generateCode] *)

Fixpoint dropChars (n : nat) (s : string) : string :=
  match n, s with
  | O, _ => s
  | S k, String _ rest => dropChars k rest
  | S _, EmptyString => EmptyString
  end.

(** [s.replace(pat, rep)] with a string pattern: the first occurrence only. *)
Fixpoint replaceFirst (pat rep s : string) : string :=
  if String.prefix pat s then rep ++ dropChars (String.length pat) s
  else match s with
       | EmptyString => EmptyString
       | String c rest => String c (replaceFirst pat rep rest)
       end.

Definition digitValue (c : ascii) : option Z :=
  let n := Z.of_nat (nat_of_ascii c) in
  if (48 <=? n) && (n <=? 57) then Some (n - 48)
  else if (97 <=? n) && (n <=? 122) then Some (n - 87)
  else if (65 <=? n) && (n <=? 90) then Some (n - 55)
  else None.

(** The longest run of digits of the radix at the head of [s]; [acc] is the
    value read so far, [None] before the first digit. *)
Fixpoint parseDigits (radix : Z) (s : string) (acc : option Z) : option Z :=
  match s with
  | EmptyString => acc
  | String c rest =>
      match digitValue c with
      | Some d =>
          if d <? radix
          then parseDigits radix rest
                 (Some (radix * match acc with Some a => a | None => 0 end + d))
          else acc
      | None => acc
      end
  end.

(** [parseInt(s)] without a radix: leading white space, a sign, a [0x]
    prefix, then digits; [NaN] when no digit is read. *)
Definition parseInt (s : string) : number :=
  let s1 := trimStart s in
  let '(sign, s2) :=
    match s1 with
    | String "-" rest => (-1, rest)
    | String "+" rest => (1, rest)
    | _ => (1, s1)
    end in
  let '(radix, s3) :=
    match s2 with
    | String "0" (String "x" rest) => (16, rest)
    | String "0" (String "X" rest) => (16, rest)
    | _ => (10, s2)
    end in
  match parseDigits radix s3 None with
  | Some v => Num (sign * v)
  | None => NaN
  end.

(** [n || 0] on a number: [NaN] and 0 are falsy. *)
Definition orZero (n : number) : Z :=
  match n with
  | Num z => z
  | NaN => 0
  end.

(** The reducer and the template string of [generateCode], on integers:
    the code's result as long as every number read off a code is a safe
    integer below [MAX_SAFE_INTEGER] (from 2^53 on, the code's [max + 1]
    rounds). *)
Definition generateCode (bookings : list Booking.t) : string :=
  let max :=
    fold_left
      (fun m b =>
         let codeVal :=
           match Booking.code b with
           | Some c => if isEmptyString c then "0" else replaceFirst "BK" "" c
           | None => "0"
           end in
         let num := orZero (parseInt codeVal) in
         Z.max m num)
      bookings 0 in
  "BK" ++ padStart 3 "0" (toString (Z.to_nat (max + 1))).

(** *** [handleSubmit] and [updateStatus] *)

(** What the page's environment supplies during a submission. *)
Module Env.
Record t := mk {
  confirmOverbook : bool;   (* the answer to [window.confirm] *)
  now : string              (* [Date.now().toString()] *)
}.
End Env.

Inductive Message :=
| ChooseService                      (* no service selected *)
| RoomsFull (time : string)          (* out of rooms at [time]; create anyway? *)
| NeedStaff (staffCount : Z)         (* the service needs [staffCount] staff *)
| CreateFailed (message : string)
| UpdateFailed (message : string).

(** What a handler of the page does to the outside, in order. *)
Inductive Effect :=
| Alert (m : Message)
| Confirm (m : Message)
| OnUpdateBooking (b : Booking.t)
| OnAddBooking (b : Booking.t)
| SetIsModalOpen (open : bool).

(** [id && id.trim() !== ''] *)
Definition isValidStaffId (id : string) : bool :=
  negb (isEmptyString id) && negb (isEmptyString (trim id)).

Definition validStaffIds (st : Page.t) : list string :=
  filter isValidStaffId (Form.selectedStaffIds (Page.formData st)).

(** [validStaffIds.map(id => employees.find(e => e.id === id)).filter(Boolean)] *)
Definition selectedStaffObjects (st : Page.t) : list Employee.t :=
  flat_map
    (fun id =>
       match find (fun e => String.eqb (Employee.id e) id) (Page.employees st) with
       | Some e => [e]
       | None => []
       end)
    (validStaffIds st).

Definition staffNameString (st : Page.t) : string :=
  match selectedStaffObjects st with
  | [] => "Chưa chỉ định"
  | objs => join ", " (map Employee.name objs)
  end.

(** [finalBookingData] with the identity fields the two branches add. *)
Definition bookingData (st : Page.t) (service : Service.t)
    (id : string) (code : option string) : Booking.t :=
  let f := Page.formData st in
  Booking.mk
    id code
    (Form.customerName f) (Form.customerPhone f) (Form.serviceId f)
    (Service.name service)
    (hd_error (validStaffIds st))
    (Some (validStaffIds st))
    (staffNameString st)
    (Form.date f) (Form.time f)
    (Service.duration service)
    (Form.status f)
    (Some (Form.notes f))
    (Service.price service)
    None.

(** [isEditing && currentId]: the id is there and not the empty string. *)
Definition editingId (st : Page.t) : option string :=
  if Page.isEditing st then
    match Page.currentId st with
    | Some c => if isEmptyString c then None else Some c
    | None => None
    end
  else None.

Definition handleSubmit (st : Page.t) (env : Env.t) : list Effect :=
  match selectedService st with
  | None => [Alert ChooseService]
  | Some service =>
      let warning :=
        if RoomStatus.isFull (roomStatus st)
        then [Confirm (RoomsFull (Form.time (Page.formData st)))]
        else [] in
      if RoomStatus.isFull (roomStatus st) && negb (Env.confirmOverbook env)
      then warning
      else if Z.of_nat (List.length (validStaffIds st)) <? Service.staffCount service
      then warning ++ [Alert (NeedStaff (Service.staffCount service))]
      else
        match editingId st with
        | Some currentId =>
            warning ++ [OnUpdateBooking (bookingData st service currentId None);
                        SetIsModalOpen false]
        | None =>
            warning ++ [OnAddBooking
                          (bookingData st service (Env.now env)
                             (Some (generateCode (Page.bookings st))));
                        SetIsModalOpen false]
        end
  end.

Definition updateStatus (st : Page.t) (id : string) (newStatus : BookingStatus)
    : list Effect :=
  match find (fun b => String.eqb (Booking.id b) id) (Page.bookings st) with
  | Some booking => [OnUpdateBooking (Booking.with_status booking newStatus)]
  | None => []
  end.

(* ================================================================== *)
(** ** The application shell: the record store and the booking handlers *)

(** A row of the [bookings] table as the store returns it. *)
Module Row.
Record t := mk {
  id : string;
  code : option string;
  customer_name : string;
  customer_phone : string;
  service_id : string;
  staff_ids : option (list string);
  date : string;
  time : string;
  duration : Z;
  status : BookingStatus;
  total_amount : Z;
  notes : option string;
  discount : option Z
}.
End Row.

Module InsertPayload.
Record t := mk {
  code : option string;
  customer_name : string;
  customer_phone : string;
  service_id : string;
  staff_ids : option (list string);
  date : string;
  time : string;
  duration : Z;
  status : BookingStatus;
  total_amount : Z;
  notes : option string;
  discount : option Z
}.
End InsertPayload.

Module UpdatePayload.
Record t := mk {
  customer_name : string;
  customer_phone : string;
  service_id : string;
  staff_ids : option (list string);
  date : string;
  time : string;
  duration : Z;
  status : BookingStatus;
  total_amount : Z;
  notes : option string;
  discount : option Z
}.
End UpdatePayload.

Module InsertResponse.
Record t := mk {
  data : option Row.t;
  error : option string     (* the error's [message] *)
}.
End InsertResponse.

(** The external record store, for the two calls on [bookings]:
    [insert(payload).select().single()] and [update(payload).eq('id', id)]. *)
Class Store := {
  insert : InsertPayload.t -> InsertResponse.t;
  update : UpdatePayload.t -> string -> option string
}.

(** The object [mapped] built from the row the store returns. *)
Definition mapped (data : Row.t) : Booking.t :=
  Booking.mk
    (Row.id data) (Row.code data) (Row.customer_name data)
    (Row.customer_phone data) (Row.service_id data)
    ""
    None
    (Row.staff_ids data)
    ""
    (Row.date data) (Row.time data) (Row.duration data)
    (Row.status data) (Row.notes data) (Row.total_amount data)
    (Row.discount data).

Definition insertPayload (newBooking : Booking.t) : InsertPayload.t :=
  InsertPayload.mk
    (Booking.code newBooking) (Booking.customerName newBooking)
    (Booking.customerPhone newBooking) (Booking.serviceId newBooking)
    (Booking.staffIds newBooking) (Booking.date newBooking)
    (Booking.time newBooking) (Booking.duration newBooking)
    (Booking.status newBooking) (Booking.totalAmount newBooking)
    (Booking.notes newBooking) (Booking.discount newBooking).

Definition updatePayload (updatedBooking : Booking.t) : UpdatePayload.t :=
  UpdatePayload.mk
    (Booking.customerName updatedBooking)
    (Booking.customerPhone updatedBooking) (Booking.serviceId updatedBooking)
    (Booking.staffIds updatedBooking) (Booking.date updatedBooking)
    (Booking.time updatedBooking) (Booking.duration updatedBooking)
    (Booking.status updatedBooking) (Booking.totalAmount updatedBooking)
    (Booking.notes updatedBooking) (Booking.discount updatedBooking).

Definition handleAddBooking `{Store} (prev : list Booking.t)
    (newBooking : Booking.t) : list Booking.t * list Effect :=
  let response := insert (insertPayload newBooking) in
  match InsertResponse.error response with
  | Some message => (prev, [Alert (CreateFailed message)])
  | None =>
      match InsertResponse.data response with
      | Some data => ((prev ++ [mapped data])%list, [])
      | None => (prev, [])
      end
  end.

Definition handleUpdateBooking `{Store} (prev : list Booking.t)
    (updatedBooking : Booking.t) : list Booking.t * list Effect :=
  match update (updatePayload updatedBooking) (Booking.id updatedBooking) with
  | Some message => (prev, [Alert (UpdateFailed message)])
  | None =>
      (map (fun b =>
              if String.eqb (Booking.id b) (Booking.id updatedBooking)
              then updatedBooking else b)
           prev,
       [])
  end.

(** The page's callbacks wired to the shell's handlers: the collection after
    the effects of one page handler have run. *)
Definition applyEffect `{Store} (bookings : list Booking.t) (e : Effect)
    : list Booking.t :=
  match e with
  | OnAddBooking b => fst (handleAddBooking bookings b)
  | OnUpdateBooking b => fst (handleUpdateBooking bookings b)
  | _ => bookings
  end.

Definition runEffects `{Store} (bookings : list Booking.t)
    (effects : list Effect) : list Booking.t :=
  fold_left applyEffect effects bookings.

(* ================================================================== *)
(** ** The specification's vocabulary *)

(** Follows the specification's words: [isBlocking(status)] is true for
    Pending, Confirmed and InProgress, false for Completed and Cancelled. *)
Definition isBlocking (s : BookingStatus) : bool :=
  match s with
  | PENDING | CONFIRMED | IN_PROGRESS => true
  | COMPLETED | CANCELLED => false
  end.

(** The statuses the page's check lets through: all but Cancelled. *)
Definition notCancelled (s : BookingStatus) : bool :=
  negb (BookingStatus_eqb s CANCELLED).

(** Minute [x] lies in the half-open interval [[start, start + len)]. *)
Definition inHalfOpen (start len x : Z) : Prop :=
  start <= x < start + len.

(** The booking's interval [[start, start + duration)] and the window
    [[t, t + m)] share a minute. *)
Definition meetsWindow (checkTime : string) (duration : Z) (b : Booking.t)
    : Prop :=
  exists cs bs x,
    timeToMinutes checkTime = Num cs /\
    timeToMinutes (Booking.time b) = Num bs /\
    inHalfOpen cs duration x /\
    inHalfOpen bs (Booking.duration b) x.

(** The booking is the one the form is editing. *)
Definition underEdit (st : Page.t) (b : Booking.t) : Prop :=
  Page.isEditing st = true /\ Page.currentId st = Some (Booking.id b).

(** The specification's [overlaps(aStart, aEnd, bStart, bEnd)]. *)
Definition overlaps (aStart aEnd bStart bEnd : Z) : bool :=
  Z.max aStart bStart <? Z.min aEnd bEnd.

(** A booking counted toward the occupancy of the window, in the words of
    the specification, for a given set of capacity-consuming statuses: on
    the selected date, of a consuming status, not the booking under edit,
    and overlapping the window. *)
Definition countedFor (consuming : BookingStatus -> bool) (st : Page.t)
    (checkTime : string) (duration : Z) (b : Booking.t) : bool :=
  String.eqb (Booking.date b) (Form.date (Page.formData st))
  && consuming (Booking.status b)
  && negb (Page.isEditing st && idIs b (Page.currentId st))
  && match timeToMinutes checkTime, timeToMinutes (Booking.time b) with
     | Num cs, Num bs =>
         overlaps cs (cs + duration) bs (bs + Booking.duration b)
     | _, _ => false
     end.

(** The bookings of the collection other than the one under edit. *)
Definition otherBookings (st : Page.t) : list Booking.t :=
  filter (fun b => negb (Page.isEditing st && idIs b (Page.currentId st)))
         (Page.bookings st).

(** The specification's "non-empty selected staff ids": the selected ids
    other than the empty string. *)
Definition nonEmptyStaffIds (st : Page.t) : list string :=
  filter (fun id => negb (isEmptyString id))
         (Form.selectedStaffIds (Page.formData st)).

(** The selected ids that are not blank: not empty once the white space
    around them is trimmed. *)
Definition nonBlankStaffIds (st : Page.t) : list string :=
  filter (fun id => negb (isEmptyString (trim id)))
         (Form.selectedStaffIds (Page.formData st)).

(** Whether an effect is a call of one of the two persistence callbacks. *)
Definition isCallback (e : Effect) : bool :=
  match e with
  | OnAddBooking _ | OnUpdateBooking _ => true
  | _ => false
  end.

Definition isRoomWarning (e : Effect) : bool :=
  match e with
  | Confirm (RoomsFull _) => true
  | _ => false
  end.



(* ================================================================== *)
(** ** Scenarios *)

Definition day : string := "2026-01-05".

(** "Massage 60": duration 60, price 400000, one member of staff. *)
Definition massage60 : Service.t :=
  Service.mk "4" "DV004" "Massage Aroma 60" "" MASSAGE 60 400000 1
             SVC_ACTIVE "".

(** A service priced 500000. *)
Definition hotStone : Service.t :=
  Service.mk "1" "DV001" "Massage Body" "" MASSAGE 90 500000 1 SVC_ACTIVE "".

Definition minh : Employee.t :=
  Employee.mk "2" "NV002" "Minh" "" THERAPIST EMP_ACTIVE "0909876543" "" None.

Definition booked (id time : string) (duration : Z) (status : BookingStatus)
    : Booking.t :=
  Booking.mk id (Some ("BK00" ++ id)) "An" "0900000000" "4" "Massage Aroma 60"
             (Some "2") (Some ["2"]) "Minh" day time duration status None
             400000 None.

Definition formAt (serviceId time : string) (staff : list string)
    (status : BookingStatus) : Form.t :=
  Form.mk "An" "0900000000" serviceId "" staff day time status "".

(** A fresh form over a collection. *)
Definition creating (bs : list Booking.t) (time : string)
    (staff : list string) : Page.t :=
  Page.mk bs [minh] [massage60; hotStone] false None
          (formAt "4" time staff CONFIRMED).

(** The form opened on a booking of the collection, with only the status
    selector changed afterwards. *)
Definition editing (bs : list Booking.t) (b : Booking.t)
    (status : BookingStatus) : Page.t :=
  setFormStatus (openEditModal (creating bs "10:00" []) b) status.

(** Five confirmed one-hour bookings at 10:00: the rooms are full. *)
Definition fiveAtTen : list Booking.t :=
  [booked "1" "10:00" 60 CONFIRMED; booked "2" "10:00" 60 CONFIRMED;
   booked "3" "10:00" 60 PENDING; booked "4" "10:00" 60 IN_PROGRESS;
   booked "5" "10:00" 60 CONFIRMED].

(** Six of them: one more than the rooms, as an overridden warning leaves. *)
Definition sixAtTen : list Booking.t :=
  fiveAtTen ++ [booked "6" "10:00" 60 CONFIRMED].

(** Five completed one-hour bookings at 10:00: the treatments are over. *)
Definition fiveCompleted : list Booking.t :=
  [booked "1" "10:00" 60 COMPLETED; booked "2" "10:00" 60 COMPLETED;
   booked "3" "10:00" 60 COMPLETED; booked "4" "10:00" 60 COMPLETED;
   booked "5" "10:00" 60 COMPLETED].

(** A booking made with a discount of 200000 on the service priced 500000. *)
Definition discounted : Booking.t :=
  Booking.mk "7" (Some "BK007") "An" "0900000000" "1" "Massage Body"
             (Some "2") (Some ["2"]) "Minh" day "10:00" 90 CONFIRMED None
             300000 (Some 200000).


Definition env0 : Env.t := Env.mk true "1767600000000".

(** A store that accepts every write and returns the inserted row under the
    id "42". *)
Definition acceptingStore : Store :=
  {| insert p :=
       InsertResponse.mk
         (Some (Row.mk "42" (InsertPayload.code p)
                  (InsertPayload.customer_name p)
                  (InsertPayload.customer_phone p)
                  (InsertPayload.service_id p) (InsertPayload.staff_ids p)
                  (InsertPayload.date p) (InsertPayload.time p)
                  (InsertPayload.duration p) (InsertPayload.status p)
                  (InsertPayload.total_amount p) (InsertPayload.notes p)
                  (InsertPayload.discount p)))
         None;
     update _ _ := None |}.

(** A store that refuses every write. *)
Definition refusingStore : Store :=
  {| insert _ := InsertResponse.mk None (Some "permission denied");
     update _ _ := Some "permission denied" |}.

(* ================================================================== *)
(** ** The booking page: the rest of the form's handlers *)


Definition setSelectedStaffIds (st : Page.t) (ids : list string) : Page.t :=
  let f := Page.formData st in
  Page.mk (Page.bookings st) (Page.employees st) (Page.services st)
    (Page.isEditing st) (Page.currentId st)
    (Form.mk (Form.customerName f) (Form.customerPhone f) (Form.serviceId f)
       (Form.staffId f) ids (Form.date f) (Form.time f)
       (Form.status f) (Form.notes f)).

(** [arr.splice(start)] for an integer [start]: what is left of the array.
    A negative [start] counts from the end. *)
Definition spliceFrom (start : Z) (arr : list string) : list string :=
  let len := Z.of_nat (List.length arr) in
  let actualStart := if start <? 0 then Z.max (len + start) 0 else Z.min start len in
  firstn (Z.to_nat actualStart) arr.

(** The array [newArr] of the effect that keeps one staff slot per required
    member of staff: padded with empty strings, or cut. *)
Definition resizedStaffIds (selected : list string) (staffCount : Z)
    : list string :=
  if Z.of_nat (List.length selected) <? staffCount
  then (selected
        ++ repeat EmptyString
             (Z.to_nat (staffCount - Z.of_nat (List.length selected))))%list
  else spliceFrom staffCount selected.

(** The effect on [formData.serviceId] and [selectedService]. *)
Definition staffSlotsEffect (st : Page.t) : Page.t :=
  match selectedService st with
  | Some service =>
      let selected := Form.selectedStaffIds (Page.formData st) in
      if Z.of_nat (List.length selected) =? Service.staffCount service then st
      else
        let newArr := resizedStaffIds selected (Service.staffCount service) in
        if list_eq_dec string_dec newArr selected then st
        else setSelectedStaffIds st newArr
  | None => st
  end.

(** [handleServiceChange]; [None] is the [RangeError] of [new Array(n)] for a
    staff count that is not an array length. *)
Definition handleServiceChange (st : Page.t) (newServiceId : string)
    : option Page.t :=
  let f := Page.formData st in
  let withService ids :=
    Page.mk (Page.bookings st) (Page.employees st) (Page.services st)
      (Page.isEditing st) (Page.currentId st)
      (Form.mk (Form.customerName f) (Form.customerPhone f) newServiceId
         (Form.staffId f) ids (Form.date f) (Form.time f)
         (Form.status f) (Form.notes f)) in
  match find (fun s => String.eqb (Service.id s) newServiceId)
             (Page.services st) with
  | Some service =>
      let n := Service.staffCount service in
      if (n <? 0) || (4294967295 <? n) then None
      else Some (withService (repeat EmptyString (Z.to_nat n)))
  | None => Some (withService [])
  end.

(** [openAddModal], for the page's [filterDate]: the initial form on that
    date, not editing.  [currentId] is left as it was. *)
Definition openAddModal (st : Page.t) (filterDate : string) : Page.t :=
  Page.mk (Page.bookings st) (Page.employees st) (Page.services st)
    false (Page.currentId st)
    (Form.mk EmptyString EmptyString EmptyString EmptyString [] filterDate
       "10:00" CONFIRMED EmptyString).

(* ================================================================== *)
(** ** The application shell: enrichment, employees and services *)

(** The names of the staff of a booking, as [enrichedBookings] joins them:
    unknown ids and employees without a name are dropped. *)
Definition staffNamesOf (employees : list Employee.t) (b : Booking.t)
    : string :=
  join ", "
    (flat_map
       (fun sid =>
          match find (fun e => String.eqb (Employee.id e) sid) employees with
          | Some e => if isEmptyString (Employee.name e) then []
                      else [Employee.name e]
          | None => []
          end)
       (match Booking.staffIds b with Some ids => ids | None => [] end)).

(** One step of the [map] of [enrichedBookings]. *)
Definition enrich (services : list Service.t) (employees : list Employee.t)
    (b : Booking.t) : Booking.t :=
  let service :=
    find (fun s => String.eqb (Service.id s) (Booking.serviceId b)) services in
  let staffNames := staffNamesOf employees b in
  let fallback :=
    if isEmptyString (Booking.serviceName b) then "Unknown Service"
    else Booking.serviceName b in
  Booking.mk
    (Booking.id b) (Booking.code b) (Booking.customerName b)
    (Booking.customerPhone b) (Booking.serviceId b)
    (match service with
     | Some s => if isEmptyString (Service.name s) then fallback
                 else Service.name s
     | None => fallback
     end)
    (Booking.staffId b) (Booking.staffIds b)
    (if isEmptyString staffNames then "Unassigned" else staffNames)
    (Booking.date b) (Booking.time b) (Booking.duration b)
    (Booking.status b) (Booking.notes b) (Booking.totalAmount b)
    (Booking.discount b).

Definition enrichedBookings (services : list Service.t)
    (employees : list Employee.t) (bookings : list Booking.t)
    : list Booking.t :=
  map (enrich services employees) bookings.

(** The [employees] payload of an insert or an update. *)
Module EmployeePayload.
Record t := mk {
  code : string;
  name : string;
  position : Position;
  status : EmployeeStatus;
  phone : string;
  email : string;
  avatar : string
}.
End EmployeePayload.

Definition employeePayload (e : Employee.t) : EmployeePayload.t :=
  EmployeePayload.mk (Employee.code e) (Employee.name e) (Employee.position e)
    (Employee.status e) (Employee.phone e) (Employee.email e)
    (Employee.avatar e).

(** The record store, for the three calls on [employees].  The row an
    insert returns is used as an [Employee] as it is. *)
Class EmployeeStore := {
  insertEmployee : EmployeePayload.t -> option Employee.t * option string;
  updateEmployee : EmployeePayload.t -> string -> option string;
  deleteEmployee : string -> option string
}.

Definition handleAddEmployee `{EmployeeStore} (prev : list Employee.t)
    (newEmp : Employee.t) : list Employee.t :=
  match insertEmployee (employeePayload newEmp) with
  | (Some data, None) => data :: prev
  | _ => prev
  end.

Definition handleUpdateEmployee `{EmployeeStore} (prev : list Employee.t)
    (updatedEmp : Employee.t) : list Employee.t :=
  match updateEmployee (employeePayload updatedEmp) (Employee.id updatedEmp) with
  | None =>
      map (fun e => if String.eqb (Employee.id e) (Employee.id updatedEmp)
                    then updatedEmp else e) prev
  | Some _ => prev
  end.

Definition handleDeleteEmployee `{EmployeeStore} (prev : list Employee.t)
    (id : string) : list Employee.t :=
  match deleteEmployee id with
  | None => filter (fun e => negb (String.eqb (Employee.id e) id)) prev
  | Some _ => prev
  end.

(* ================================================================== *)
(** ** The operations page (the page the shell renders)

    Its source follows the login page in [src/pages/LoginPage.tsx].
    Its time grid ([generateTimeSlots], [timeToMinutes]), its
    [generateCode] and its [updateStatus] have the text of the booking
    page's; the definitions above serve for both.  The page state below
    holds the hooks the modelled functions read. *)

Module Ops.

Module Form.
Record t := mk {
  customerName : string;
  customerPhone : string;
  serviceId : string;
  staffId : string;
  selectedStaffIds : list string;
  date : string;
  time : string;
  status : BookingStatus;
  notes : string;
  discount : number
}.
End Form.

Module Page.
Record t := mk {
  bookings : list Booking.t;
  employees : list Employee.t;
  services : list Service.t;
  currentDate : string;
  isEditing : bool;
  currentId : option string;
  formData : Form.t
}.
End Page.

Definition ALL_TIME_SLOTS : list TimeSlot.t := TIME_SLOTS.

Definition isBlocking (status : BookingStatus) : bool :=
  BookingStatus_eqb status CONFIRMED
  || BookingStatus_eqb status IN_PROGRESS
  || BookingStatus_eqb status PENDING.

(** [(b.staffIds && b.staffIds.includes(staffId)) || b.staffId === staffId] *)
Definition isAssigned (b : Booking.t) (staffId : string) : bool :=
  match Booking.staffIds b with
  | Some ids => existsb (String.eqb staffId) ids
  | None => false
  end
  || match Booking.staffId b with
     | Some s => String.eqb s staffId
     | None => false
     end.

Definition bookingsForCurrentDate (st : Page.t) : list Booking.t :=
  filter (fun b => String.eqb (Booking.date b) (Page.currentDate st))
         (Page.bookings st).

Definition timelineBookings (st : Page.t) : list Booking.t :=
  filter (fun b => negb (BookingStatus_eqb (Booking.status b) CANCELLED))
         (bookingsForCurrentDate st).

(** *** Room allocation for the timeline *)

(** [a >= b] on numbers: false when either side is [NaN]. *)
Definition num_ge (a b : number) : bool :=
  match a, b with
  | Num x, Num y => y <=? x
  | _, _ => false
  end.

(** The loop over the rooms: the first room free at [start] is taken and is
    busy until [end_]; [None] is the source's index -1. *)
Fixpoint assignRoom (start end_ : number) (roomFreeTime : list number)
    : option (nat * list number) :=
  match roomFreeTime with
  | [] => None
  | free :: rest =>
      if num_ge start free then Some (O, end_ :: rest)
      else match assignRoom start end_ rest with
           | Some (i, rest') => Some (S i, free :: rest')
           | None => None
           end
  end.

(** The object [allocation], from booking id to room index: a later write
    for an id hides the earlier one. *)
Definition Allocation := list (string * nat).

Fixpoint roomOf (allocation : Allocation) (id : string) : option nat :=
  match allocation with
  | [] => None
  | (k, r) :: rest => if String.eqb k id then Some r else roomOf rest id
  end.

(** The body of [sorted.forEach]. *)
Definition allocateOne (acc : Allocation * list number) (booking : Booking.t)
    : Allocation * list number :=
  let '(allocation, roomFreeTime) := acc in
  let start := timeToMinutes (Booking.time booking) in
  let end_ := num_add start (Num (Booking.duration booking)) in
  match assignRoom start end_ roomFreeTime with
  | Some (assignedRoomIndex, roomFreeTime') =>
      ((Booking.id booking, assignedRoomIndex) :: allocation, roomFreeTime')
  | None => (allocation, roomFreeTime)
  end.

Definition allocate (sorted : list Booking.t) : Allocation * list number :=
  fold_left allocateOne sorted ([], repeat (Num 0) TOTAL_ROOMS).

Section Sorting.

(** The sign of [a.localeCompare(b)], which depends on the host's
    collation. *)
Variable localeCompare : string -> string -> comparison.

(** [sort] with the comparator [(a, b) => a.time.localeCompare(b.time)]:
    the stable order. *)
Fixpoint insertByTime (x : Booking.t) (sorted : list Booking.t)
    : list Booking.t :=
  match sorted with
  | [] => [x]
  | y :: rest =>
      match localeCompare (Booking.time x) (Booking.time y) with
      | Gt => y :: insertByTime x rest
      | _ => x :: sorted
      end
  end.

Fixpoint sortByTime (bs : list Booking.t) : list Booking.t :=
  match bs with
  | [] => []
  | b :: rest => insertByTime b (sortByTime rest)
  end.

Definition roomAllocations (st : Page.t) : Allocation :=
  fst (allocate (sortByTime (timelineBookings st))).

End Sorting.

(** *** The form: amounts, availability, submission *)

Definition selectedService (st : Page.t) : option Service.t :=
  find (fun s => String.eqb (Service.id s) (Form.serviceId (Page.formData st)))
       (Page.services st).

(** [Number(formData.discount) || 0] *)
Definition discountAmount (st : Page.t) : Z :=
  orZero (Form.discount (Page.formData st)).


Definition isSelf (st : Page.t) (b : Booking.t) : bool :=
  Page.isEditing st && idIs b (Page.currentId st).

(** The message of [checkStaffAvailability]: ready, or busy until
    [calculateEndTime(conflict.time, conflict.duration)]. *)
Inductive StaffMessage :=
| Ready
| BusyUntilEndOf (time : string) (duration : Z).

Module StaffAvailability.
Record t := mk {
  isAvailable : bool;
  message : StaffMessage
}.
End StaffAvailability.

(** The callback of [relevantBookings.find] in [checkStaffAvailability]. *)
Definition conflictsWith (st : Page.t) (staffId : string)
    (newStart newEnd : number) (b : Booking.t) : bool :=
  if isSelf st b then false
  else if negb (isBlocking (Booking.status b)) then false
  else if negb (isAssigned b staffId) then false
  else
    let bStart := timeToMinutes (Booking.time b) in
    let bEnd := num_add bStart (Num (Booking.duration b)) in
    num_lt newStart bEnd && num_lt bStart newEnd.

Definition checkStaffAvailability (st : Page.t) (staffId : string)
    : StaffAvailability.t :=
  match selectedService st with
  | None => StaffAvailability.mk true Ready
  | Some service =>
      if isEmptyString (Form.time (Page.formData st))
      then StaffAvailability.mk true Ready
      else
        let newStart := timeToMinutes (Form.time (Page.formData st)) in
        let newEnd := num_add newStart (Num (Service.duration service)) in
        let relevantBookings :=
          filter (fun b => String.eqb (Booking.date b)
                                      (Form.date (Page.formData st)))
                 (Page.bookings st) in
        match find (conflictsWith st staffId newStart newEnd)
                   relevantBookings with
        | Some conflict =>
            StaffAvailability.mk false
              (BusyUntilEndOf (Booking.time conflict)
                              (Booking.duration conflict))
        | None => StaffAvailability.mk true Ready
        end
  end.

(** The callback of the filter of [getRoomAvailability]. *)
Definition overlapping (st : Page.t) (checkStart checkEnd : number)
    (b : Booking.t) : bool :=
  if isSelf st b then false
  else if negb (isBlocking (Booking.status b)) then false
  else
    let bStart := timeToMinutes (Booking.time b) in
    let bEnd := num_add bStart (Num (Booking.duration b)) in
    num_lt (Math_max checkStart bStart) (Math_min checkEnd bEnd).

Definition overlappingBookings (st : Page.t) (checkTime : string)
    (duration : Z) : list Booking.t :=
  let checkStart := timeToMinutes checkTime in
  let checkEnd := num_add checkStart (Num duration) in
  let relevantBookings :=
    filter (fun b => String.eqb (Booking.date b) (Form.date (Page.formData st)))
           (Page.bookings st) in
  filter (overlapping st checkStart checkEnd) relevantBookings.

Definition getRoomAvailability (st : Page.t) (checkTime : string)
    (duration : Z) : Availability.t :=
  Availability.mk
    (List.length (overlappingBookings st checkTime duration) <? TOTAL_ROOMS)%nat
    (List.length (overlappingBookings st checkTime duration)).

Fixpoint scanSlots (st : Page.t) (duration : Z) (slots : list TimeSlot.t)
    : option string :=
  match slots with
  | [] => None
  | slot :: rest =>
      let check := getRoomAvailability st (TimeSlot.time slot) duration in
      if Availability.isAvailable check then Some (TimeSlot.time slot)
      else scanSlots st duration rest
  end.

Definition roomStatus (st : Page.t) : RoomStatus.t :=
  match selectedService st with
  | None => RoomStatus.mk false None
  | Some service =>
      let time := Form.time (Page.formData st) in
      if isEmptyString time then RoomStatus.mk false None
      else if Availability.isAvailable
                (getRoomAvailability st time (Service.duration service))
      then RoomStatus.mk false None
      else
        let nextTime :=
          match findIndex (fun t => String.eqb (TimeSlot.time t) time)
                          ALL_TIME_SLOTS with
          | Some startIndex =>
              scanSlots st (Service.duration service)
                        (skipn (S startIndex) ALL_TIME_SLOTS)
          | None => None
          end in
        RoomStatus.mk true nextTime
  end.

Definition validStaffIds (st : Page.t) : list string :=
  filter isValidStaffId (Form.selectedStaffIds (Page.formData st)).

Definition staffNameString (st : Page.t) : string :=
  match
    flat_map
      (fun id =>
         match find (fun e => String.eqb (Employee.id e) id)
                    (Page.employees st) with
         | Some e => [e]
         | None => []
         end)
      (validStaffIds st)
  with
  | [] => "Chưa chỉ định"
  | objs => join ", " (map Employee.name objs)
  end.

Definition bookingData (st : Page.t) (service : Service.t)
    (id : string) (code : option string) : Booking.t :=
  let f := Page.formData st in
  Booking.mk
    id code
    (Form.customerName f) (Form.customerPhone f) (Form.serviceId f)
    (Service.name service)
    (hd_error (validStaffIds st))
    (Some (validStaffIds st))
    (staffNameString st)
    (Form.date f) (Form.time f)
    (Service.duration service)
    (Form.status f)
    (Some (Form.notes f))
    (Z.max 0 (Service.price service - discountAmount st))
    (Some (discountAmount st)).

Definition editingId (st : Page.t) : option string :=
  if Page.isEditing st then
    match Page.currentId st with
    | Some c => if isEmptyString c then None else Some c
    | None => None
    end
  else None.

(** The flag [shouldCheckRoom]: cleared when the booking under edit keeps its
    stored date, time and duration. *)
Definition shouldCheckRoom (st : Page.t) (service : Service.t) : bool :=
  match editingId st with
  | Some currentId =>
      match find (fun b => String.eqb (Booking.id b) currentId)
                 (Page.bookings st) with
      | Some originalBooking =>
          negb (String.eqb (Booking.date originalBooking)
                           (Form.date (Page.formData st))
                && String.eqb (Booking.time originalBooking)
                              (Form.time (Page.formData st))
                && (Booking.duration originalBooking
                    =? Service.duration service))
      | None => true
      end
  | None => true
  end.

Definition handleSubmit (st : Page.t) (env : Env.t) : list Effect :=
  match selectedService st with
  | None => [Alert ChooseService]
  | Some service =>
      let asks :=
        shouldCheckRoom st service && RoomStatus.isFull (roomStatus st) in
      let warning :=
        if asks then [Confirm (RoomsFull (Form.time (Page.formData st)))]
        else [] in
      if asks && negb (Env.confirmOverbook env) then warning
      else if Z.of_nat (List.length (validStaffIds st))
              <? Service.staffCount service
      then warning ++ [Alert (NeedStaff (Service.staffCount service))]
      else
        match editingId st with
        | Some currentId =>
            warning ++ [OnUpdateBooking (bookingData st service currentId None);
                        SetIsModalOpen false]
        | None =>
            warning ++ [OnAddBooking
                          (bookingData st service (Env.now env)
                             (Some (generateCode (Page.bookings st))));
                        SetIsModalOpen false]
        end
  end.

Definition openAddModal (st : Page.t) : Page.t :=
  Page.mk (Page.bookings st) (Page.employees st) (Page.services st)
    (Page.currentDate st) false None
    (Form.mk EmptyString EmptyString EmptyString EmptyString []
       (Page.currentDate st) "10:00" CONFIRMED EmptyString (Num 0)).

(** [booking.discount || 0] *)
Definition discountOrZero (d : option Z) : number :=
  match d with
  | Some z => Num z
  | None => Num 0
  end.

Definition openEditModal (st : Page.t) (booking : Booking.t) : Page.t :=
  let initialSelectedStaffIds :=
    match Booking.staffIds booking with
    | Some (x :: xs) => x :: xs
    | _ =>
        match Booking.staffId booking with
        | Some s => if isEmptyString s then [] else [s]
        | None => []
        end
    end in
  Page.mk (Page.bookings st) (Page.employees st) (Page.services st)
    (Page.currentDate st) true (Some (Booking.id booking))
    (Form.mk (Booking.customerName booking) (Booking.customerPhone booking)
       (Booking.serviceId booking) (orEmpty (Booking.staffId booking))
       initialSelectedStaffIds (Booking.date booking) (Booking.time booking)
       (Booking.status booking) (orEmpty (Booking.notes booking))
       (discountOrZero (Booking.discount booking))).

Definition setFormStatus (st : Page.t) (status : BookingStatus) : Page.t :=
  let f := Page.formData st in
  Page.mk (Page.bookings st) (Page.employees st) (Page.services st)
    (Page.currentDate st) (Page.isEditing st) (Page.currentId st)
    (Form.mk (Form.customerName f) (Form.customerPhone f) (Form.serviceId f)
       (Form.staffId f) (Form.selectedStaffIds f) (Form.date f) (Form.time f)
       status (Form.notes f) (Form.discount f)).

(** The discount selector's [onChange]. *)
Definition setFormDiscount (st : Page.t) (discount : number) : Page.t :=
  let f := Page.formData st in
  Page.mk (Page.bookings st) (Page.employees st) (Page.services st)
    (Page.currentDate st) (Page.isEditing st) (Page.currentId st)
    (Form.mk (Form.customerName f) (Form.customerPhone f) (Form.serviceId f)
       (Form.staffId f) (Form.selectedStaffIds f) (Form.date f) (Form.time f)
       (Form.status f) (Form.notes f) discount).

End Ops.

(* ================================================================== *)
(** ** Vocabulary and scenarios for the shell and the operations page *)

(** The store returned the payload as the inserted row. *)
Definition echoes (p : InsertPayload.t) (row : Row.t) : Prop :=
  Row.code row = InsertPayload.code p
  /\ Row.customer_name row = InsertPayload.customer_name p
  /\ Row.customer_phone row = InsertPayload.customer_phone p
  /\ Row.service_id row = InsertPayload.service_id p
  /\ Row.staff_ids row = InsertPayload.staff_ids p
  /\ Row.date row = InsertPayload.date p
  /\ Row.time row = InsertPayload.time p
  /\ Row.duration row = InsertPayload.duration p
  /\ Row.status row = InsertPayload.status p
  /\ Row.total_amount row = InsertPayload.total_amount p
  /\ Row.notes row = InsertPayload.notes p
  /\ Row.discount row = InsertPayload.discount p.

(** The state hooks of the shell that the enrichment and the booking
    handlers read. *)
Module App.
Record t := mk {
  bookings : list Booking.t;
  employees : list Employee.t;
  services : list Service.t
}.
End App.

(** The props the shell passes to the page it renders:
    [bookings={enrichedBookings}], [employees={employees}] and
    [services={services}]; the page's own hooks are those of [st]. *)
Definition renderPage (app : App.t) (st : Page.t) : Page.t :=
  Page.mk
    (enrichedBookings (App.services app) (App.employees app)
                      (App.bookings app))
    (App.employees app) (App.services app)
    (Page.isEditing st) (Page.currentId st) (Page.formData st).

(** The shell once the callbacks among the effects of a page handler have
    run: they act on the [bookings] hook, the stored collection. *)
Definition appAfter `{Store} (app : App.t) (effects : list Effect) : App.t :=
  App.mk (runEffects (App.bookings app) effects)
         (App.employees app) (App.services app).

(** A record as [handleAddBooking] leaves it in the stored collection: the
    two display names are empty until the enrichment fills them in. *)
Definition storedThird : Booking.t :=
  Booking.mk "3" (Some "BK003") "An" "0900000000" "4" "" None (Some ["2"])
             "" day "10:00" 60 PENDING None 400000 None.

Definition app0 : App.t :=
  App.mk [booked "1" "10:00" 60 CONFIRMED; storedThird;
          booked "5" "10:00" 60 CONFIRMED]
         [minh] [massage60; hotStone].

(** The operations page over another booking collection. *)
Definition opsWithBookings (st : Ops.Page.t) (bs : list Booking.t)
    : Ops.Page.t :=
  Ops.Page.mk bs (Ops.Page.employees st) (Ops.Page.services st)
    (Ops.Page.currentDate st) (Ops.Page.isEditing st) (Ops.Page.currentId st)
    (Ops.Page.formData st).


(** A booking counted toward the occupancy of the window on the operations
    page, for a given set of capacity-consuming statuses. *)
Definition opsCountedFor (consuming : BookingStatus -> bool)
    (st : Ops.Page.t) (checkTime : string) (duration : Z) (b : Booking.t)
    : bool :=
  String.eqb (Booking.date b) (Ops.Form.date (Ops.Page.formData st))
  && consuming (Booking.status b)
  && negb (Ops.isSelf st b)
  && match timeToMinutes checkTime, timeToMinutes (Booking.time b) with
     | Num cs, Num bs =>
         overlaps cs (cs + duration) bs (bs + Booking.duration b)
     | _, _ => false
     end.

(** The two pages look at the same collection, date and booking under
    edit. *)
Definition sameView (st : Page.t) (ops : Ops.Page.t) : Prop :=
  Page.bookings st = Ops.Page.bookings ops
  /\ Form.date (Page.formData st) = Ops.Form.date (Ops.Page.formData ops)
  /\ Page.isEditing st = Ops.Page.isEditing ops
  /\ Page.currentId st = Ops.Page.currentId ops.


(** The member of staff is on the booking. *)
Definition assignedTo (b : Booking.t) (staffId : string) : Prop :=
  (exists ids, Booking.staffIds b = Some ids /\ In staffId ids)
  \/ Booking.staffId b = Some staffId.

Definition opsFormAt (serviceId time : string) (staff : list string)
    (status : BookingStatus) (discount : number) : Ops.Form.t :=
  Ops.Form.mk "An" "0900000000" serviceId "" staff day time status ""
              discount.

Definition opsCreating (bs : list Booking.t) (serviceId time : string)
    (staff : list string) (discount : number) : Ops.Page.t :=
  Ops.Page.mk bs [minh] [massage60; hotStone] day false None
              (opsFormAt serviceId time staff CONFIRMED discount).

Definition opsEditing (bs : list Booking.t) (b : Booking.t)
    (status : BookingStatus) : Ops.Page.t :=
  Ops.setFormStatus
    (Ops.openEditModal (opsCreating bs "4" "10:00" [] (Num 0)) b) status.

(** Seven one-hour bookings: five at 10:00, one at 10:30, one at 11:00. *)
Definition busyMorning : list Booking.t :=
  fiveAtTen ++ [booked "6" "10:30" 60 CONFIRMED; booked "7" "11:00" 60 PENDING].

Definition acceptingEmployeeStore : EmployeeStore :=
  {| insertEmployee p :=
       (Some (Employee.mk "77" (EmployeePayload.code p) (EmployeePayload.name p)
                (EmployeePayload.avatar p) (EmployeePayload.position p)
                (EmployeePayload.status p) (EmployeePayload.phone p)
                (EmployeePayload.email p) None),
        None);
     updateEmployee _ _ := None;
     deleteEmployee _ := None |}.

(* ================================================================== *)
(** ** Vocabulary for the room allocation *)


(** The rooms that were given to a booking so far: those whose free time
    is no longer the initial 0. *)
Definition busyRooms (roomFreeTime : list number) : nat :=
  List.length
    (filter (fun f => match f with Num 0 => false | _ => true end)
            roomFreeTime).

(** Every booking placed so far has a room, and no more rooms are in use
    than bookings were placed. *)
Definition allPlaced (done : list Booking.t)
    (acc : Ops.Allocation * list number) : Prop :=
  let '(alloc, free) := acc in
  List.length free = TOTAL_ROOMS
  /\ (busyRooms free <= List.length done)%nat
  /\ (forall x, In x done ->
        exists r, Ops.roomOf alloc (Booking.id x) = Some r
                  /\ (r < TOTAL_ROOMS)%nat).

(** A room is available on the operations page for the duration when the
    service starts at the slot. *)
Definition opsAvailableAt (st : Ops.Page.t) (duration : Z)
    (slot : TimeSlot.t) : bool :=
  Availability.isAvailable
    (Ops.getRoomAvailability st (TimeSlot.time slot) duration).

(* ================================================================== *)
(** ** The operations page: the real-time status of a member of staff *)

(** The text of the status column: working until the end of a booking,
    waiting for a guest who booked a start time, busy until the end of a
    booking, or ready.  The end is [calculateEndTime(time, duration)]. *)
Inductive StatusText :=
| WorkingUntilEndOf (time : string) (duration : Z)
| WaitingForGuestOf (time : string)
| BusyUntilEndOf (time : string) (duration : Z)
| ReadyNow.

Module StaffStatus.
Record t := mk {
  isBusy : bool;
  displayText : StatusText
}.
End StaffStatus.

(** [start <= currentMinutes && currentMinutes < end] *)
Definition coversNow (b : Booking.t) (currentMinutes : Z) : bool :=
  let start := timeToMinutes (Booking.time b) in
  let end_ := num_add start (Num (Booking.duration b)) in
  Ops.num_ge (Num currentMinutes) start && num_lt (Num currentMinutes) end_.

(** [getStaffStatusDetails], for today's date string and the minutes of the
    page's clock. *)
Definition getStaffStatusDetails (bookings : list Booking.t)
    (todayString : string) (currentMinutes : Z) (staffId : string)
    : StaffStatus.t :=
  match find (fun b => String.eqb (Booking.date b) todayString
                       && Ops.isAssigned b staffId
                       && BookingStatus_eqb (Booking.status b) IN_PROGRESS)
             bookings with
  | Some inProgress =>
      StaffStatus.mk true
        (WorkingUntilEndOf (Booking.time inProgress)
                           (Booking.duration inProgress))
  | None =>
      match find (fun b =>
                    if negb (String.eqb (Booking.date b) todayString) then false
                    else if negb (Ops.isAssigned b staffId)
                            || negb (BookingStatus_eqb (Booking.status b)
                                                       CONFIRMED)
                    then false
                    else coversNow b currentMinutes)
                 bookings with
      | Some confirmed =>
          StaffStatus.mk true (WaitingForGuestOf (Booking.time confirmed))
      | None =>
          match find (fun b =>
                        if negb (String.eqb (Booking.date b) todayString)
                        then false
                        else if negb (Ops.isAssigned b staffId) then false
                        else if BookingStatus_eqb (Booking.status b) CANCELLED
                                || BookingStatus_eqb (Booking.status b) COMPLETED
                                || BookingStatus_eqb (Booking.status b) CONFIRMED
                                || BookingStatus_eqb (Booking.status b)
                                                     IN_PROGRESS
                        then false
                        else coversNow b currentMinutes)
                     bookings with
          | Some otherBusy =>
              StaffStatus.mk true
                (BusyUntilEndOf (Booking.time otherBusy)
                                (Booking.duration otherBusy))
          | None => StaffStatus.mk false ReadyNow
          end
      end
  end.

(** The clock's minute lies in the booking's half-open interval. *)
Definition inProgressAt (b : Booking.t) (currentMinutes : Z) : Prop :=
  exists s, timeToMinutes (Booking.time b) = Num s
            /\ inHalfOpen s (Booking.duration b) currentMinutes.

(** What makes a member of staff busy now: a booking of today assigned to
    them that is in progress, or that is confirmed or pending and whose
    interval holds the current minute. *)
Definition keepsBusy (todayString : string) (currentMinutes : Z)
    (staffId : string) (b : Booking.t) : Prop :=
  Booking.date b = todayString
  /\ assignedTo b staffId
  /\ (Booking.status b = IN_PROGRESS
      \/ ((Booking.status b = CONFIRMED \/ Booking.status b = PENDING)
          /\ inProgressAt b currentMinutes)).

(* ================================================================== *)
(** ** Auxiliary facts *)

Lemma BookingStatus_eqb_eq (a b : BookingStatus) :
  BookingStatus_eqb a b = true <-> a = b.
Proof. destruct a, b; simpl; split; intro E; congruence. Qed.

Lemma notCancelled_true (s : BookingStatus) :
  notCancelled s = true <-> s <> CANCELLED.
Proof. destruct s; unfold notCancelled; simpl; split; congruence. Qed.

Lemma filter_twice {A : Type} (p q : A -> bool) (l : list A) :
  filter p (filter q l) = filter (fun x => q x && p x) l.
Proof.
  induction l as [|x l IH]; simpl; [reflexivity|].
  destruct (q x); simpl; [destruct (p x)|]; rewrite IH; reflexivity.
Qed.


(** The comparison of the source on two integer intervals is the
    specification's [overlaps], and holds exactly when they share a point. *)
Lemma overlaps_shared_point (aStart aEnd bStart bEnd : Z) :
  overlaps aStart aEnd bStart bEnd = true
  <-> exists x, (aStart <= x < aEnd) /\ (bStart <= x < bEnd).
Proof.
  unfold overlaps. rewrite Z.ltb_lt. split.
  - intro H. exists (Z.max aStart bStart). lia.
  - intros [x Hx]. lia.
Qed.

Lemma idIs_true (b : Booking.t) (c : option string) :
  idIs b c = true <-> c = Some (Booking.id b).
Proof.
  destruct c as [c|]; simpl.
  - rewrite String.eqb_eq. split; intro E; [subst|inversion E]; reflexivity.
  - split; discriminate.
Qed.

Lemma underEdit_test (st : Page.t) (b : Booking.t) :
  Page.isEditing st && idIs b (Page.currentId st) = true <-> underEdit st b.
Proof.
  unfold underEdit. rewrite andb_true_iff, idIs_true. reflexivity.
Qed.

(** The two filters of [getRoomAvailability] select the bookings counted
    for the statuses other than Cancelled. *)
Lemma overlapping_counted (st : Page.t) (checkTime : string) (duration : Z)
    (b : Booking.t) :
  onSelectedDate st b
  && overlapping st (timeToMinutes checkTime)
                 (num_add (timeToMinutes checkTime) (Num duration)) b
  = countedFor notCancelled st checkTime duration b.
Proof.
  unfold onSelectedDate, overlapping, countedFor, notCancelled, overlaps.
  destruct (String.eqb _ _); simpl; [|reflexivity].
  destruct (BookingStatus_eqb _ _); simpl; [reflexivity|].
  destruct (Page.isEditing st && idIs b (Page.currentId st)); simpl;
    [reflexivity|].
  destruct (timeToMinutes checkTime), (timeToMinutes (Booking.time b));
    reflexivity.
Qed.

Lemma overlappingBookings_counted (st : Page.t) (checkTime : string)
    (duration : Z) :
  overlappingBookings st checkTime duration
  = filter (countedFor notCancelled st checkTime duration) (Page.bookings st).
Proof.
  unfold overlappingBookings. rewrite filter_twice.
  apply filter_ext. intro b. apply overlapping_counted.
Qed.

(** What being counted means: date, status, identity and a shared minute. *)
Lemma countedFor_spec (consuming : BookingStatus -> bool) (st : Page.t)
    (checkTime : string) (duration : Z) (b : Booking.t) :
  countedFor consuming st checkTime duration b = true
  <-> Booking.date b = Form.date (Page.formData st)
      /\ consuming (Booking.status b) = true
      /\ ~ underEdit st b
      /\ meetsWindow checkTime duration b.
Proof.
  unfold countedFor, meetsWindow, inHalfOpen.
  rewrite !andb_true_iff, negb_true_iff, String.eqb_eq,
    <- not_true_iff_false, underEdit_test.
  split.
  - intros [[[Hd Hs] He] Ho]. repeat split; try assumption.
    destruct (timeToMinutes checkTime) as [|cs]; [discriminate|].
    destruct (timeToMinutes (Booking.time b)) as [|bs]; [discriminate|].
    apply overlaps_shared_point in Ho. destruct Ho as [x Hx].
    exists cs, bs, x. repeat split; lia.
  - intros (Hd & Hs & He & cs & bs & x & Hc & Hb & Hx1 & Hx2).
    repeat split; try assumption.
    rewrite Hc, Hb. apply overlaps_shared_point. exists x. lia.
Qed.

Lemma occupiedCount_length (st : Page.t) (checkTime : string) (duration : Z) :
  Availability.occupiedCount (getRoomAvailability st checkTime duration)
  = List.length (overlappingBookings st checkTime duration).
Proof. reflexivity. Qed.

Lemma isAvailable_iff (st : Page.t) (checkTime : string) (duration : Z) :
  Availability.isAvailable (getRoomAvailability st checkTime duration) = true
  <-> (List.length (overlappingBookings st checkTime duration) < TOTAL_ROOMS)%nat.
Proof. unfold getRoomAvailability; simpl. apply Nat.ltb_lt. Qed.

(* ================================================================== *)
(** ** The room-availability check *)

(** Claim C1 at its failing input.  One Completed booking at 10:00 for an
    hour, and the window 10:00 plus 60 minutes: the booking page's check
    reports one occupied room, where the bookings of a capacity-consuming
    status (Pending, Confirmed, InProgress) that overlap the window number
    0; the operations page's check, on the same collection, date and
    window, reports 0, as the claim says.  The booking page's status guard
    lets every status but Cancelled through. *)
Theorem C1_booking_page_counts_a_completed_booking :
  let bs := [booked "1" "10:00" 60 COMPLETED] in
  let st := creating bs "10:00" [] in
  let ops := opsCreating bs "4" "10:00" [] (Num 0) in
  Availability.occupiedCount (getRoomAvailability st "10:00" 60) = 1%nat
  /\ List.length (filter (countedFor isBlocking st "10:00" 60) (Page.bookings st))
     = 0%nat
  /\ Availability.occupiedCount (Ops.getRoomAvailability ops "10:00" 60)
     = 0%nat.
Proof. vm_compute. repeat split. Qed.

(** What the booking page's check counts, for every date, start time,
    duration and collection: the bookings on the selected date whose status
    is not Cancelled, whose half-open interval shares a minute with the
    window, and which are not the booking under edit; it reports available
    exactly when that count is below [TOTAL_ROOMS], which is 5. *)
Lemma bookingPage_counts_non_cancelled_overlaps
    (st : Page.t) (checkTime : string) (duration : Z) :
  let r := getRoomAvailability st checkTime duration in
  Availability.occupiedCount r
  = List.length
      (filter (countedFor notCancelled st checkTime duration) (Page.bookings st))
  /\ (forall b,
        countedFor notCancelled st checkTime duration b = true
        <-> Booking.date b = Form.date (Page.formData st)
            /\ Booking.status b <> CANCELLED
            /\ ~ underEdit st b
            /\ meetsWindow checkTime duration b)
  /\ (Availability.isAvailable r = true
      <-> (Availability.occupiedCount r < TOTAL_ROOMS)%nat)
  /\ TOTAL_ROOMS = 5%nat.
Proof.
  cbv zeta. split; [|split; [|split]].
  - rewrite occupiedCount_length, overlappingBookings_counted. reflexivity.
  - intro b. rewrite countedFor_spec, notCancelled_true. reflexivity.
  - rewrite occupiedCount_length. apply isAvailable_iff.
  - reflexivity.
Qed.

(** Claim C2 at its failing input.  A Completed booking is among the
    bookings the booking page counts toward the occupancy of its window,
    and five of them make the page report that no room is available; on
    the operations page Completed is not a blocking status, the booking is
    not counted, and a room is available. *)
Theorem C2_completed_status_consumes_capacity_on_the_booking_page :
  let b := booked "1" "10:00" 60 COMPLETED in
  let st := creating fiveCompleted "10:00" [] in
  let ops := opsCreating fiveCompleted "4" "10:00" [] (Num 0) in
  Booking.status b = COMPLETED
  /\ In b (overlappingBookings st "10:00" 60)
  /\ Availability.isAvailable (getRoomAvailability st "10:00" 60) = false
  /\ Ops.isBlocking (Booking.status b) = false
  /\ Ops.overlappingBookings ops "10:00" 60 = []
  /\ Availability.isAvailable (Ops.getRoomAvailability ops "10:00" 60) = true.
Proof.
  vm_compute. split; [reflexivity|]. split; [left; reflexivity|].
  repeat split.
Qed.

(** On the booking page a booking of the collection that is on the selected
    date, overlaps the window and is not the one under edit is counted
    exactly when its status is one of Pending, Confirmed, InProgress and
    Completed; a Cancelled booking is never counted. *)
Lemma bookingPage_counts_every_status_but_cancelled
    (st : Page.t) (checkTime : string) (duration : Z) (b : Booking.t) :
  In b (Page.bookings st) ->
  Booking.date b = Form.date (Page.formData st) ->
  ~ underEdit st b ->
  meetsWindow checkTime duration b ->
  (In b (overlappingBookings st checkTime duration)
   <-> Booking.status b = PENDING \/ Booking.status b = CONFIRMED
       \/ Booking.status b = IN_PROGRESS \/ Booking.status b = COMPLETED)
  /\ (forall c, In c (overlappingBookings st checkTime duration) ->
                Booking.status c <> CANCELLED).
Proof.
  intros Hin Hd He Hm. rewrite overlappingBookings_counted. split.
  - rewrite filter_In, countedFor_spec, notCancelled_true.
    destruct (Booking.status b); intuition congruence.
  - intros c Hc. apply filter_In in Hc. destruct Hc as [_ Hc].
    apply countedFor_spec in Hc. apply notCancelled_true, Hc.
Qed.

(* ================================================================== *)
(** ** Interval overlap *)



(* ================================================================== *)
(** ** Monotonicity *)



(* ================================================================== *)
(** ** The next-available-slot search *)



Lemma TIME_SLOTS_generated : TIME_SLOTS = generateTimeSlots.
Proof. vm_compute. reflexivity. Qed.





(* ================================================================== *)
(** ** The submission guard *)

(** Case analysis of [handleSubmit] once the service is resolved: the room
    warning, the user's answer, the staff test and the create/update
    branch. *)
Ltac submit_cases st env service Hsvc :=
  unfold handleSubmit; rewrite Hsvc;
  destruct (RoomStatus.isFull (roomStatus st)) eqn:?Hfull;
  destruct (Env.confirmOverbook env) eqn:?Hconfirm;
  destruct (Z.of_nat (List.length (validStaffIds st))
            <? Service.staffCount service) eqn:?Hstaff;
  destruct (editingId st) as [?cid|] eqn:?Hedit;
  cbn [andb negb app existsb isCallback isRoomWarning orb In].

Lemma runEffects_without_callback `{Store} (prev : list Booking.t)
    (effects : list Effect) :
  existsb isCallback effects = false -> runEffects prev effects = prev.
Proof.
  unfold runEffects. revert prev.
  induction effects as [|e es IH]; intros prev Hno; simpl in *;
    [reflexivity|].
  apply orb_false_iff in Hno. destruct Hno as [He Hes].
  destruct e; simpl in He; try discriminate He; simpl; apply IH, Hes.
Qed.

Lemma handleSubmit_warns (st : Page.t) (env : Env.t) (service : Service.t) :
  selectedService st = Some service ->
  existsb isRoomWarning (handleSubmit st env)
  = RoomStatus.isFull (roomStatus st).
Proof.
  intro Hsvc. submit_cases st env service Hsvc; reflexivity.
Qed.

Lemma roomStatus_isFull (st : Page.t) (service : Service.t) :
  selectedService st = Some service ->
  Form.time (Page.formData st) <> "" ->
  RoomStatus.isFull (roomStatus st)
  = negb (Availability.isAvailable
            (getRoomAvailability st (Form.time (Page.formData st))
                                 (Service.duration service))).
Proof.
  intros Hsvc Htime. unfold roomStatus. rewrite Hsvc.
  destruct (Form.time (Page.formData st)) as [|c rest] eqn:Et;
    [contradiction Htime; reflexivity|].
  cbn [isEmptyString].
  destruct (Availability.isAvailable _); reflexivity.
Qed.


(** On the booking page, for every accepted submission (the create or the
    update callback is called with booking [b]) the selected service [s] is
    resolved and the [totalAmount] of [b] is [s.price]. *)
Lemma bookingPage_totalAmount_is_service_price
    (st : Page.t) (env : Env.t) (b : Booking.t) :
  In (OnAddBooking b) (handleSubmit st env)
  \/ In (OnUpdateBooking b) (handleSubmit st env) ->
  exists service,
    selectedService st = Some service
    /\ Booking.totalAmount b = Service.price service.
Proof.
  intro Hin.
  destruct (selectedService st) as [service|] eqn:Hsvc.
  - exists service. split; [reflexivity|].
    revert Hin. submit_cases st env service Hsvc;
      intros [Hin|Hin];
      repeat (destruct Hin as [Hin|Hin]; try discriminate Hin);
      try contradiction; inversion Hin; reflexivity.
  - unfold handleSubmit in Hin. rewrite Hsvc in Hin. simpl in Hin.
    destruct Hin as [[Hin|[]]|[Hin|[]]]; discriminate Hin.
Qed.

Lemma overlappingBookings_others (st : Page.t) (checkTime : string)
    (duration : Z) :
  overlappingBookings (Page.with_bookings st (otherBookings st))
                      checkTime duration
  = overlappingBookings st checkTime duration.
Proof.
  rewrite !overlappingBookings_counted.
  change (countedFor notCancelled (Page.with_bookings st (otherBookings st)))
    with (countedFor notCancelled st).
  cbn [Page.bookings Page.with_bookings]. unfold otherBookings.
  rewrite filter_twice. apply filter_ext. intro b.
  unfold countedFor.
  destruct (negb (Page.isEditing st && idIs b (Page.currentId st)));
    [reflexivity|].
  rewrite andb_false_r. reflexivity.
Qed.

(** Claim C4 at its failing input.  Six confirmed or pending one-hour
    bookings stand at 10:00; the first is opened and saved with date, start
    time and duration as stored and only the status changed.  The booking
    page raises the room-full warning, because five other bookings occupy
    the rooms; the operations page, on the same collection and form, finds
    the rooms full as well but skips the check and raises no warning, as
    the claim says.  The booking page has no test for an unchanged date,
    time and duration. *)
Theorem C4_booking_page_warns_on_an_unchanged_edit :
  let b := booked "1" "10:00" 60 CONFIRMED in
  let st := editing sixAtTen b COMPLETED in
  let ops := opsEditing sixAtTen b COMPLETED in
  In b (Page.bookings st)
  /\ Page.currentId st = Some (Booking.id b)
  /\ Form.date (Page.formData st) = Booking.date b
  /\ Form.time (Page.formData st) = Booking.time b
  /\ selectedService st = Some massage60
  /\ Service.duration massage60 = Booking.duration b
  /\ In (Confirm (RoomsFull "10:00")) (handleSubmit st env0)
  /\ RoomStatus.isFull (Ops.roomStatus ops) = true
  /\ Ops.shouldCheckRoom ops massage60 = false
  /\ existsb isRoomWarning (Ops.handleSubmit ops env0) = false.
Proof.
  cbv zeta. split; [left; reflexivity|].
  split; [reflexivity|]. split; [reflexivity|]. split; [reflexivity|].
  split; [reflexivity|]. split; [reflexivity|].
  split; [vm_compute; left; reflexivity|].
  vm_compute. repeat split.
Qed.

(** On the booking page the room check of an edit runs whether or not date,
    time or duration changed, and never counts the booking under edit: the
    bookings counted are those counted among the other bookings of the
    collection, and the submission raises the room-full warning exactly
    when at least [TOTAL_ROOMS] of those other bookings overlap the
    window. *)
Lemma bookingPage_edit_is_checked_against_the_others
    (st : Page.t) (env : Env.t) (service : Service.t) :
  selectedService st = Some service ->
  Form.time (Page.formData st) <> "" ->
  let time := Form.time (Page.formData st) in
  let duration := Service.duration service in
  let others :=
    overlappingBookings (Page.with_bookings st (otherBookings st))
                        time duration in
  overlappingBookings st time duration = others
  /\ (forall b, In b (overlappingBookings st time duration) ->
                ~ underEdit st b)
  /\ (existsb isRoomWarning (handleSubmit st env) = true
      <-> (TOTAL_ROOMS <= List.length others)%nat).
Proof.
  intros Hsvc Htime time duration others. split; [|split].
  - unfold others. symmetry. apply overlappingBookings_others.
  - intros b Hb. rewrite overlappingBookings_counted in Hb.
    apply filter_In in Hb. destruct Hb as [_ Hb].
    apply countedFor_spec in Hb. tauto.
  - rewrite (handleSubmit_warns st env service Hsvc).
    rewrite (roomStatus_isFull st service Hsvc Htime).
    rewrite negb_true_iff, <- not_true_iff_false, isAvailable_iff.
    unfold others. rewrite overlappingBookings_others.
    fold time duration. lia.
Qed.

Lemma isEmptyString_false (s : string) : isEmptyString s = false <-> s <> "".
Proof. destruct s; simpl; split; intro E; congruence. Qed.

(** The ids the page counts are the non-blank ones; they are among the
    non-empty ones, and are all of them when no selected id is made of white
    space only. *)
Lemma validStaffIds_nonBlank (st : Page.t) :
  validStaffIds st = nonBlankStaffIds st.
Proof.
  unfold validStaffIds, nonBlankStaffIds. apply filter_ext.
  intros [|c rest]; reflexivity.
Qed.

Lemma validStaffIds_nonEmpty (st : Page.t) :
  (List.length (validStaffIds st) <= List.length (nonEmptyStaffIds st))%nat
  /\ ((forall id, In id (Form.selectedStaffIds (Page.formData st)) ->
                  id <> "" -> trim id <> "") ->
      validStaffIds st = nonEmptyStaffIds st).
Proof.
  unfold validStaffIds, nonEmptyStaffIds, isValidStaffId.
  induction (Form.selectedStaffIds (Page.formData st)) as [|id ids IH].
  - split; [apply le_n | reflexivity].
  - destruct IH as [IHle IHeq]. cbn [filter].
    destruct (isEmptyString id) eqn:Ee; cbn [negb andb].
    + split; [exact IHle|]. intro Hall. apply IHeq.
      intros x Hx. apply Hall. right. exact Hx.
    + destruct (isEmptyString (trim id)) eqn:Et; cbn [negb List.length].
      * split; [lia|]. intro Hall. exfalso.
        apply isEmptyString_false in Ee.
        assert (Ht : trim id <> "") by (apply Hall; [left; reflexivity | exact Ee]).
        apply isEmptyString_false in Ht. congruence.
      * split; [lia|]. intro Hall. f_equal. apply IHeq.
        intros x Hx. apply Hall. right. exact Hx.
Qed.

(** Claim C7, as stated, fails on its passing side: with one blank id
    selected (a single space) for a service that needs one member of staff,
    the number of non-empty selected ids is 1, which is at least
    [staffCount], yet the check does not pass: the submission raises the
    not-enough-staff alert and calls neither callback. *)
Lemma C7_blank_id_is_not_counted :
  let st := creating fiveAtTen "12:00" [" "] in
  selectedService st = Some massage60
  /\ Service.staffCount massage60 = 1
  /\ List.length (nonEmptyStaffIds st) = 1%nat
  /\ handleSubmit st env0 = [Alert (NeedStaff 1)]
  /\ existsb isCallback (handleSubmit st env0) = false.
Proof. vm_compute. repeat split. Qed.

(** Claim C7, amended: with the service resolved, the ids the page counts
    are the selected ids that are not blank (not empty once white space is
    trimmed); if fewer of them than [service.staffCount] are selected, the
    submission calls neither callback and the collection is unchanged, for
    every store, and the alert raised, unless the user declined the
    room-full warning first, is the not-enough-staff one; if at least
    [service.staffCount] are selected, that alert is not raised, and the
    submission calls a callback unless the user declined the room-full
    warning.  The counted ids are among the non-empty ones, so fewer
    non-empty ids than [service.staffCount] are rejected as well. *)
Theorem C7_staff_check_counts_the_non_blank_ids `{Store}
    (st : Page.t) (env : Env.t) (service : Service.t)
    (prev : list Booking.t) :
  selectedService st = Some service ->
  let effects := handleSubmit st env in
  let declined :=
    RoomStatus.isFull (roomStatus st) && negb (Env.confirmOverbook env) in
  (validStaffIds st = nonBlankStaffIds st
   /\ forall id,
        In id (nonBlankStaffIds st)
        <-> In id (Form.selectedStaffIds (Page.formData st))
            /\ trim id <> "")
  /\ (Z.of_nat (List.length (nonBlankStaffIds st)) < Service.staffCount service ->
      existsb isCallback effects = false
      /\ runEffects prev effects = prev
      /\ (declined = false ->
          In (Alert (NeedStaff (Service.staffCount service))) effects))
  /\ (Service.staffCount service <= Z.of_nat (List.length (nonBlankStaffIds st)) ->
      (forall n, ~ In (Alert (NeedStaff n)) effects)
      /\ (declined = false -> existsb isCallback effects = true))
  /\ ((List.length (nonBlankStaffIds st) <= List.length (nonEmptyStaffIds st))%nat
      /\ (Z.of_nat (List.length (nonEmptyStaffIds st)) < Service.staffCount service ->
          existsb isCallback effects = false
          /\ runEffects prev effects = prev)).
Proof.
  intros Hsvc effects declined.
  assert (Hreject :
    Z.of_nat (List.length (validStaffIds st)) < Service.staffCount service ->
    existsb isCallback effects = false /\ runEffects prev effects = prev).
  { intro Hlt. apply Z.ltb_lt in Hlt.
    assert (Hno : existsb isCallback effects = false).
    { unfold effects. submit_cases st env service Hsvc;
        try reflexivity; congruence. }
    split; [exact Hno | apply runEffects_without_callback, Hno]. }
  rewrite <- (validStaffIds_nonBlank st).
  split; [split|split; [|split; [|split]]].
  - reflexivity.
  - intro id. unfold validStaffIds, isValidStaffId.
    rewrite filter_In, andb_true_iff, !negb_true_iff, !isEmptyString_false.
    split; [tauto|]. intros [Hin Ht]. split; [exact Hin|].
    split; [|exact Ht]. intro E. subst id. apply Ht. reflexivity.
  - intro Hlt. destruct (Hreject Hlt) as [Hno Hsame].
    split; [exact Hno|]. split; [exact Hsame|].
    apply Z.ltb_lt in Hlt. unfold declined, effects.
    submit_cases st env service Hsvc; try congruence; try discriminate;
      intros _; simpl; tauto.
  - intro Hge. apply Z.ltb_ge in Hge. split.
    + intros n. unfold effects. submit_cases st env service Hsvc;
        try congruence;
        intro Hin; repeat (destruct Hin as [Hin|Hin]; try discriminate Hin);
        contradiction.
    + unfold declined, effects. submit_cases st env service Hsvc;
        try congruence; try reflexivity; discriminate.
  - apply validStaffIds_nonEmpty.
  - intro Hlt. apply Hreject.
    pose proof (proj1 (validStaffIds_nonEmpty st)). lia.
Qed.

Lemma C7_staff_check_witness :
  let blank := creating fiveAtTen "12:00" [" "] in
  let staffed := creating fiveAtTen "12:00" ["2"] in
  (existsb isCallback (handleSubmit blank env0) = false
   /\ @runEffects acceptingStore fiveAtTen (handleSubmit blank env0) = fiveAtTen
   /\ In (Alert (NeedStaff 1)) (handleSubmit blank env0))
  /\ existsb isCallback (handleSubmit staffed env0) = true.
Proof.
  cbv zeta. split.
  - destruct (proj1 (proj2
      (@C7_staff_check_counts_the_non_blank_ids acceptingStore
         (creating fiveAtTen "12:00" [" "]) env0 massage60 fiveAtTen
         eq_refl))) as (Hno & Hsame & Halert); [reflexivity|].
    split; [exact Hno|]. split; [exact Hsame|]. apply Halert. reflexivity.
  - destruct (proj1 (proj2 (proj2
      (@C7_staff_check_counts_the_non_blank_ids acceptingStore
         (creating fiveAtTen "12:00" ["2"]) env0 massage60 fiveAtTen
         eq_refl)))) as [_ Hcall]; [discriminate|].
    apply Hcall. reflexivity.
Defined.

(* ================================================================== *)
(** ** The in-memory booking collection *)

Lemma nth_error_replace_by_id (prev : list Booking.t) (ub : Booking.t)
    (i : nat) (b : Booking.t) :
  nth_error prev i = Some b ->
  nth_error
    (map (fun x => if String.eqb (Booking.id x) (Booking.id ub) then ub else x)
         prev) i
  = Some (if String.eqb (Booking.id b) (Booking.id ub) then ub else b).
Proof. intro Hn. rewrite nth_error_map, Hn. reflexivity. Qed.

(** Claim C8, as stated, fails: after a successful create on a collection
    of five bookings, the first record is still the old first record and the
    new one is last; the collection is neither the submitted booking nor
    the stored record put in front of the old collection. *)
Lemma C8_create_does_not_prepend :
  let newBooking := booked "9" "12:00" 60 CONFIRMED in
  let next := fst (@handleAddBooking acceptingStore fiveAtTen newBooking) in
  hd_error next = hd_error fiveAtTen
  /\ option_map Booking.id (nth_error next 5) = Some "42"
  /\ next <> newBooking :: fiveAtTen
  /\ (forall stored, next <> stored :: fiveAtTen).
Proof.
  cbv zeta. split; [reflexivity|]. split; [reflexivity|]. split.
  - vm_compute. discriminate.
  - intros stored E. vm_compute in E. inversion E.
Qed.

(** Claim C8, amended: if the store refuses the write, the collection is
    left unchanged by a create and by an update; if it accepts a create and
    returns the stored row, the record built from that row is appended at
    the end of the collection; if it accepts an update, the collection keeps
    its length and order, every record with the updated booking's id is
    replaced by it and every other record is unchanged. *)
Theorem C8_write_then_reflect `{Store}
    (prev : list Booking.t) (newBooking updatedBooking : Booking.t) :
  (forall message,
      InsertResponse.error (insert (insertPayload newBooking)) = Some message ->
      fst (handleAddBooking prev newBooking) = prev)
  /\ (forall data,
        InsertResponse.error (insert (insertPayload newBooking)) = None ->
        InsertResponse.data (insert (insertPayload newBooking)) = Some data ->
        fst (handleAddBooking prev newBooking) = (prev ++ [mapped data])%list)
  /\ (forall message,
        update (updatePayload updatedBooking) (Booking.id updatedBooking)
        = Some message ->
        fst (handleUpdateBooking prev updatedBooking) = prev)
  /\ (update (updatePayload updatedBooking) (Booking.id updatedBooking) = None ->
      let next := fst (handleUpdateBooking prev updatedBooking) in
      List.length next = List.length prev
      /\ forall i b, nth_error prev i = Some b ->
           (Booking.id b = Booking.id updatedBooking ->
            nth_error next i = Some updatedBooking)
           /\ (Booking.id b <> Booking.id updatedBooking ->
               nth_error next i = Some b)).
Proof.
  split; [|split; [|split]].
  - intros message He. unfold handleAddBooking. rewrite He. reflexivity.
  - intros data He Hd. unfold handleAddBooking. rewrite He, Hd. reflexivity.
  - intros message He. unfold handleUpdateBooking. rewrite He. reflexivity.
  - intros He next. unfold next, handleUpdateBooking. rewrite He.
    cbn [fst]. split; [apply length_map|].
    intros i b Hn. rewrite (nth_error_replace_by_id _ _ _ _ Hn). split.
    + intro E. apply String.eqb_eq in E. rewrite E. reflexivity.
    + intro E. apply String.eqb_neq in E. rewrite E. reflexivity.
Qed.

Lemma C8_write_then_reflect_witness :
  let newBooking := booked "9" "12:00" 60 CONFIRMED in
  let updated := booked "3" "10:00" 60 COMPLETED in
  fst (@handleAddBooking refusingStore fiveAtTen newBooking) = fiveAtTen
  /\ fst (@handleUpdateBooking refusingStore fiveAtTen updated) = fiveAtTen
  /\ List.length (fst (@handleUpdateBooking acceptingStore fiveAtTen updated))
     = List.length fiveAtTen.
Proof.
  cbv zeta. split; [|split].
  - apply (proj1 (@C8_write_then_reflect refusingStore fiveAtTen
                    (booked "9" "12:00" 60 CONFIRMED)
                    (booked "3" "10:00" 60 COMPLETED))
                 "permission denied").
    reflexivity.
  - apply (proj1 (proj2 (proj2
             (@C8_write_then_reflect refusingStore fiveAtTen
                (booked "9" "12:00" 60 CONFIRMED)
                (booked "3" "10:00" 60 COMPLETED))))
                 "permission denied").
    reflexivity.
  - apply (proj2 (proj2 (proj2
             (@C8_write_then_reflect acceptingStore fiveAtTen
                (booked "9" "12:00" 60 CONFIRMED)
                (booked "3" "10:00" 60 COMPLETED))))).
    reflexivity.
Defined.

Lemma same_id_same_booking (l : list Booking.t) (x b : Booking.t) :
  NoDup (map Booking.id l) -> In x l -> In b l ->
  Booking.id x = Booking.id b -> x = b.
Proof.
  induction l as [|a l IH]; simpl; intros Hnd Hx Hb E; [contradiction|].
  inversion Hnd as [|? ? Hnotin Hnd']. subst.
  destruct Hx as [Hx|Hx], Hb as [Hb|Hb]; subst.
  - reflexivity.
  - exfalso. apply Hnotin. rewrite E. apply in_map, Hb.
  - exfalso. apply Hnotin. rewrite <- E. apply in_map, Hx.
  - apply IH; assumption.
Qed.

Lemma find_by_id (l : list Booking.t) (b : Booking.t) :
  NoDup (map Booking.id l) -> In b l ->
  find (fun x => String.eqb (Booking.id x) (Booking.id b)) l = Some b.
Proof.
  intros Hnd Hb.
  destruct (find (fun x => String.eqb (Booking.id x) (Booking.id b)) l)
    as [x|] eqn:Ef.
  - apply find_some in Ef. destruct Ef as [Hx E].
    apply String.eqb_eq in E.
    rewrite (same_id_same_booking l x b Hnd Hx Hb E). reflexivity.
  - apply (find_none _ _ Ef) in Hb. rewrite String.eqb_refl in Hb.
    discriminate Hb.
Qed.

Lemma enrich_id (services : list Service.t) (employees : list Employee.t)
    (b : Booking.t) :
  Booking.id (enrich services employees b) = Booking.id b.
Proof. reflexivity. Qed.

Lemma enrichedBookings_ids (services : list Service.t)
    (employees : list Employee.t) (l : list Booking.t) :
  map Booking.id (enrichedBookings services employees l) = map Booking.id l.
Proof.
  unfold enrichedBookings. rewrite map_map. apply map_ext.
  intro b. apply enrich_id.
Qed.

(** Enriching a record that is already enriched, whatever its status was set
    to since, changes nothing: the names it carries are the ones the
    enrichment computes. *)
Lemma enrich_with_status_enrich (services : list Service.t)
    (employees : list Employee.t) (b : Booking.t) (s : BookingStatus) :
  enrich services employees
    (Booking.with_status (enrich services employees b) s)
  = Booking.with_status (enrich services employees b) s.
Proof.
  unfold enrich, Booking.with_status, staffNamesOf.
  cbn [Booking.id Booking.code Booking.customerName Booking.customerPhone
       Booking.serviceId Booking.serviceName Booking.staffId Booking.staffIds
       Booking.staffName Booking.date Booking.time Booking.duration
       Booking.status Booking.notes Booking.totalAmount Booking.discount].
  f_equal.
  destruct (find _ services) as [svc|];
    [destruct (isEmptyString (Service.name svc)); [|reflexivity]|];
    destruct (isEmptyString (Booking.serviceName b)) eqn:E;
    cbn [isEmptyString]; try rewrite E; reflexivity.
Qed.

(** Claim C10, on the collections as the shell wires them: the page holds
    the stored bookings enriched with the display names, and the update
    callback replaces records of the stored collection.  For a booking [b]
    of the page's collection, the stored ids being unique, and any status
    [s], the quick status change calls the update callback once, with a
    booking that has status [s] and agrees with [b] on every other field.
    If the store accepts the write, the record of [b] in the page's
    collection is replaced by that booking and every other record is
    unchanged, in place; in the stored collection that booking takes the
    place of the record with [b]'s id, which thereby takes [b]'s display
    names, and every other record is unchanged, in place.  If the store
    refuses, nothing changes. *)
Theorem C10_status_change_touches_only_status `{Store}
    (app : App.t) (st : Page.t) (b : Booking.t) (s : BookingStatus) :
  let page := renderPage app st in
  In b (Page.bookings page) ->
  NoDup (map Booking.id (App.bookings app)) ->
  let effects := updateStatus page (Booking.id b) s in
  exists b',
    effects = [OnUpdateBooking b']
    /\ Booking.status b' = s
    /\ (Booking.id b' = Booking.id b
        /\ Booking.code b' = Booking.code b
        /\ Booking.customerName b' = Booking.customerName b
        /\ Booking.customerPhone b' = Booking.customerPhone b
        /\ Booking.serviceId b' = Booking.serviceId b
        /\ Booking.serviceName b' = Booking.serviceName b
        /\ Booking.staffId b' = Booking.staffId b
        /\ Booking.staffIds b' = Booking.staffIds b
        /\ Booking.staffName b' = Booking.staffName b
        /\ Booking.date b' = Booking.date b
        /\ Booking.time b' = Booking.time b
        /\ Booking.duration b' = Booking.duration b
        /\ Booking.notes b' = Booking.notes b
        /\ Booking.totalAmount b' = Booking.totalAmount b
        /\ Booking.discount b' = Booking.discount b)
    /\ (update (updatePayload b') (Booking.id b') = None ->
        let app' := appAfter app effects in
        let page' := renderPage app' st in
        List.length (Page.bookings page') = List.length (Page.bookings page)
        /\ (forall i x, nth_error (Page.bookings page) i = Some x ->
              (x = b -> nth_error (Page.bookings page') i = Some b')
              /\ (x <> b -> nth_error (Page.bookings page') i = Some x))
        /\ List.length (App.bookings app') = List.length (App.bookings app)
        /\ (forall i x, nth_error (App.bookings app) i = Some x ->
              (Booking.id x = Booking.id b ->
               nth_error (App.bookings app') i = Some b')
              /\ (Booking.id x <> Booking.id b ->
                  nth_error (App.bookings app') i = Some x)))
    /\ (forall message,
          update (updatePayload b') (Booking.id b') = Some message ->
          appAfter app effects = app).
Proof.
  intros page Hinb Hnd effects.
  set (sv := App.services app) in *. set (em := App.employees app) in *.
  assert (Hb0 : exists b0, enrich sv em b0 = b /\ In b0 (App.bookings app))
    by (apply in_map_iff, Hinb).
  destruct Hb0 as (b0 & Hb & Hin).
  assert (Hndp : NoDup (map Booking.id (Page.bookings page))).
  { unfold page, renderPage. cbn [Page.bookings].
    rewrite enrichedBookings_ids. exact Hnd. }
  assert (Hcall : effects = [OnUpdateBooking (Booking.with_status b s)]).
  { unfold effects, updateStatus.
    rewrite (find_by_id _ _ Hndp Hinb). reflexivity. }
  exists (Booking.with_status b s).
  split; [exact Hcall|]. split; [reflexivity|].
  split; [repeat split|]. rewrite Hcall.
  unfold appAfter, runEffects. cbn [fold_left applyEffect].
  unfold handleUpdateBooking. split.
  - intro He. cbv zeta. rewrite He. cbn [fst App.bookings].
    assert (Hstored : forall i x, nth_error (App.bookings app) i = Some x ->
      nth_error
        (map (fun y => if String.eqb (Booking.id y)
                                     (Booking.id (Booking.with_status b s))
                       then Booking.with_status b s else y)
             (App.bookings app)) i
      = Some (if String.eqb (Booking.id x) (Booking.id b)
              then Booking.with_status b s else x)).
    { intros i x Hn. rewrite (nth_error_replace_by_id _ _ _ _ Hn).
      reflexivity. }
    assert (Hid : Booking.id b = Booking.id b0)
      by (rewrite <- Hb; apply enrich_id).
    assert (Hsame : forall x, In x (App.bookings app) ->
      String.eqb (Booking.id x) (Booking.id b) = true -> x = b0).
    { intros x Hx E. apply String.eqb_eq in E. rewrite Hid in E.
      apply (same_id_same_booking (App.bookings app) x b0 Hnd Hx Hin E). }
    split; [|split; [|split]].
    + unfold page, renderPage, enrichedBookings.
      cbn [Page.bookings App.bookings App.services App.employees].
      rewrite !length_map. reflexivity.
    + intros i x Hn.
      unfold page, renderPage, enrichedBookings in Hn.
      cbn [Page.bookings] in Hn. fold sv em in Hn.
      rewrite nth_error_map in Hn.
      destruct (nth_error (App.bookings app) i) as [x0|] eqn:Hn0;
        [|discriminate Hn].
      cbn [option_map] in Hn. injection Hn as Hx.
      unfold renderPage, enrichedBookings.
      cbn [Page.bookings App.bookings App.services App.employees].
      fold sv em. rewrite nth_error_map, (Hstored i x0 Hn0).
      cbn [option_map].
      destruct (String.eqb (Booking.id x0) (Booking.id b)) eqn:E.
      * assert (Ex0 : x0 = b0)
          by (apply Hsame; [eapply nth_error_In, Hn0 | exact E]).
        subst x0. split.
        -- intros _. rewrite <- Hb. rewrite enrich_with_status_enrich.
           reflexivity.
        -- intro Hne. exfalso. apply Hne. rewrite <- Hx. exact Hb.
      * split; [|intros _; rewrite Hx; reflexivity].
        intro Ex. exfalso. apply not_true_iff_false in E. apply E.
        apply String.eqb_eq.
        rewrite <- (enrich_id sv em x0), Hx, Ex. reflexivity.
    + apply length_map.
    + intros i x Hn. rewrite (Hstored i x Hn). split.
      * intro E. apply String.eqb_eq in E. rewrite E. reflexivity.
      * intro Hne. apply String.eqb_neq in Hne. rewrite Hne. reflexivity.
  - intros message He. rewrite He. cbn [fst]. destruct app; reflexivity.
Qed.

Lemma C10_status_change_witness :
  let page := renderPage app0 (creating [] "12:00" ["2"]) in
  let b := enrich (App.services app0) (App.employees app0) storedThird in
  exists b',
    updateStatus page (Booking.id b) CONFIRMED = [OnUpdateBooking b']
    /\ Booking.status b' = CONFIRMED
    /\ Booking.serviceName b' = Booking.serviceName b
    /\ Booking.serviceName b = "Massage Aroma 60"
    /\ Booking.serviceName storedThird = ""
    /\ App.bookings
         (@appAfter acceptingStore app0
            (updateStatus page (Booking.id b) CONFIRMED))
       = [booked "1" "10:00" 60 CONFIRMED; b';
          booked "5" "10:00" 60 CONFIRMED].
Proof.
  cbv zeta.
  destruct (@C10_status_change_touches_only_status acceptingStore
              app0 (creating [] "12:00" ["2"])
              (enrich (App.services app0) (App.employees app0) storedThird)
              CONFIRMED)
    as (b' & Hcall & Hs & Hfields & _).
  - right. left. reflexivity.
  - repeat constructor; simpl; intuition discriminate.
  - exists b'. split; [exact Hcall|]. split; [exact Hs|].
    split; [apply Hfields|]. split; [reflexivity|]. split; [reflexivity|].
    rewrite Hcall. inversion Hcall. reflexivity.
Defined.

(* ================================================================== *)
(** ** Booking codes *)
















(* ================================================================== *)
(** ** Staff slots of the form *)

Lemma filter_valid_repeat_empty (k : nat) :
  filter isValidStaffId (repeat EmptyString k) = [].
Proof. induction k as [|k IH]; [reflexivity | exact IH]. Qed.




(* ================================================================== *)
(** ** Changing the service, and what a submission needs *)

(** When changing the service succeeds, the form takes the new service id
    and as many empty staff slots as the service requires (none for an
    unknown service): every earlier selection is dropped, the bookings are
    untouched, the slot effect has nothing left to do, and for a service
    that requires staff a submission made right away calls neither
    callback. *)
Theorem X3_changing_the_service_clears_the_staff
    (st st' : Page.t) (newServiceId : string) (env : Env.t) :
  handleServiceChange st newServiceId = Some st' ->
  Form.serviceId (Page.formData st') = newServiceId
  /\ Forall (fun id => id = EmptyString)
            (Form.selectedStaffIds (Page.formData st'))
  /\ validStaffIds st' = []
  /\ Page.bookings st' = Page.bookings st
  /\ staffSlotsEffect st' = st'
  /\ (forall service,
        selectedService st' = Some service ->
        List.length (Form.selectedStaffIds (Page.formData st'))
        = Z.to_nat (Service.staffCount service)
        /\ (0 < Service.staffCount service ->
            existsb isCallback (handleSubmit st' env) = false)).
Proof.
  intro Hchange. unfold handleServiceChange in Hchange.
  assert (Hrep : forall k, Forall (fun id => id = EmptyString)
                                  (repeat EmptyString k)).
  { induction k; constructor; auto. }
  destruct (find (fun s => String.eqb (Service.id s) newServiceId)
                 (Page.services st)) as [svc|] eqn:Hfind.
  - destruct ((Service.staffCount svc <? 0)
              || (4294967295 <? Service.staffCount svc)) eqn:Hrange;
      [discriminate Hchange|].
    apply orb_false_iff in Hrange. destruct Hrange as [Hlo _].
    apply Z.ltb_ge in Hlo.
    injection Hchange as Hst.
    assert (Hsvc : selectedService st' = Some svc)
      by (rewrite <- Hst; exact Hfind).
    assert (Hsel : Form.selectedStaffIds (Page.formData st')
                   = repeat EmptyString (Z.to_nat (Service.staffCount svc)))
      by (rewrite <- Hst; reflexivity).
    assert (Hvalid : validStaffIds st' = []).
    { unfold validStaffIds. rewrite Hsel. apply filter_valid_repeat_empty. }
    split; [rewrite <- Hst; reflexivity|].
    split; [rewrite Hsel; apply Hrep|].
    split; [exact Hvalid|].
    split; [rewrite <- Hst; reflexivity|].
    split.
    + unfold staffSlotsEffect. rewrite Hsvc, Hsel, repeat_length.
      replace (Z.of_nat (Z.to_nat (Service.staffCount svc))
               =? Service.staffCount svc) with true
        by (symmetry; apply Z.eqb_eq; lia).
      reflexivity.
    + intros service Hs. rewrite Hsvc in Hs. inversion Hs. subst service.
      split; [rewrite Hsel; apply repeat_length|].
      intro Hpos.
      submit_cases st' env svc Hsvc; try reflexivity;
        rewrite Hvalid in *; cbn [List.length Z.of_nat] in *;
        apply Z.ltb_ge in Hstaff; lia.
  - injection Hchange as Hst.
    assert (Hnone : selectedService st' = None)
      by (rewrite <- Hst; exact Hfind).
    split; [rewrite <- Hst; reflexivity|].
    split; [rewrite <- Hst; constructor|].
    split; [rewrite <- Hst; reflexivity|].
    split; [rewrite <- Hst; reflexivity|]. split.
    + unfold staffSlotsEffect. rewrite Hnone. reflexivity.
    + intros service Hs. congruence.
Qed.

Lemma X3_changing_the_service_witness :
  let st := creating fiveAtTen "12:00" ["2"] in
  exists st',
    handleServiceChange st "1" = Some st'
    /\ Form.serviceId (Page.formData st') = "1"
    /\ validStaffIds st' = []
    /\ existsb isCallback (handleSubmit st' env0) = false.
Proof.
  cbv zeta.
  destruct (handleServiceChange (creating fiveAtTen "12:00" ["2"]) "1")
    as [st'|] eqn:E; [|discriminate E].
  exists st'.
  destruct (X3_changing_the_service_clears_the_staff
              (creating fiveAtTen "12:00" ["2"]) st' "1" env0 E)
    as (Hid & _ & Hvalid & _ & _ & Hsubmit).
  split; [reflexivity|]. split; [exact Hid|]. split; [exact Hvalid|].
  apply (Hsubmit hotStone).
  - inversion E. reflexivity.
  - reflexivity.
Defined.

(** A submission calls a persistence callback exactly when the service is
    resolved, the rooms are not full or the user confirmed the warning, and
    enough staff ids are counted; it never calls more than one; an update is
    only called while editing, with the id under edit, and a create only
    otherwise, with the clock's id and the generated code. *)
Theorem X4_submission_is_accepted_exactly_when (st : Page.t) (env : Env.t) :
  let effects := handleSubmit st env in
  (existsb isCallback effects = true
   <-> exists service,
         selectedService st = Some service
         /\ (RoomStatus.isFull (roomStatus st) = false
             \/ Env.confirmOverbook env = true)
         /\ Service.staffCount service
            <= Z.of_nat (List.length (validStaffIds st)))
  /\ (List.length (filter isCallback effects) <= 1)%nat
  /\ (forall b, In (OnUpdateBooking b) effects ->
                editingId st = Some (Booking.id b))
  /\ (forall b, In (OnAddBooking b) effects ->
                editingId st = None
                /\ Booking.id b = Env.now env
                /\ Booking.code b = Some (generateCode (Page.bookings st))).
Proof.
  cbv zeta.
  destruct (selectedService st) as [service|] eqn:Hsvc.
  - split; [|split; [|split]].
    + split.
      * intro Hcall. exists service. split; [reflexivity|].
        revert Hcall. submit_cases st env service Hsvc;
          intro Hcall; try discriminate Hcall;
          (split; [auto | apply Z.ltb_ge; assumption]).
      * intros (svc & E & Hroom & Hstaff). inversion E. subst svc.
        apply Z.ltb_ge in Hstaff.
        submit_cases st env service Hsvc; try reflexivity; try congruence;
          destruct Hroom; congruence.
    + submit_cases st env service Hsvc; cbn; lia.
    + intros b. submit_cases st env service Hsvc; intro Hin;
        repeat (destruct Hin as [Hin|Hin]; try discriminate Hin);
        try contradiction; inversion Hin; reflexivity.
    + intros b. submit_cases st env service Hsvc; intro Hin;
        repeat (destruct Hin as [Hin|Hin]; try discriminate Hin);
        try contradiction; inversion Hin; repeat split; reflexivity.
  - unfold handleSubmit. rewrite Hsvc. cbn. split; [|split; [|split]].
    + split; [discriminate|]. intros (svc & E & _). discriminate E.
    + lia.
    + intros b [E|[]]. discriminate E.
    + intros b [E|[]]. discriminate E.
Qed.

Lemma X4_submission_witness :
  let st := editing sixAtTen (booked "1" "10:00" 60 CONFIRMED) COMPLETED in
  existsb isCallback (handleSubmit st env0) = true
  /\ editingId st = Some "1".
Proof.
  cbv zeta.
  destruct (X4_submission_is_accepted_exactly_when
              (editing sixAtTen (booked "1" "10:00" 60 CONFIRMED) COMPLETED)
              env0)
    as (Hiff & _ & Hupd & _).
  split.
  - apply Hiff. exists massage60. split; [reflexivity|].
    split; [right; reflexivity | discriminate].
  - apply (Hupd (bookingData
                   (editing sixAtTen (booked "1" "10:00" 60 CONFIRMED)
                            COMPLETED)
                   massage60 "1" None)).
    right. left. reflexivity.
Defined.

(* ================================================================== *)
(** ** Opening a booking and saving it *)

(** Saving the form right after it was opened on a booking with a
    non-empty id never creates a booking: an accepted submission calls the
    update callback with the booking's id, customer, service id, date, time
    and status; the service name, duration and amount are the selected
    service's; the object sent carries no code and no discount. *)
Theorem X5_saving_an_opened_booking_updates_it
    (st : Page.t) (b b' : Booking.t) (env : Env.t) :
  Booking.id b <> EmptyString ->
  In (OnAddBooking b') (handleSubmit (openEditModal st b) env)
  \/ In (OnUpdateBooking b') (handleSubmit (openEditModal st b) env) ->
  In (OnUpdateBooking b') (handleSubmit (openEditModal st b) env)
  /\ Booking.id b' = Booking.id b
  /\ Booking.customerName b' = Booking.customerName b
  /\ Booking.customerPhone b' = Booking.customerPhone b
  /\ Booking.serviceId b' = Booking.serviceId b
  /\ Booking.date b' = Booking.date b
  /\ Booking.time b' = Booking.time b
  /\ Booking.status b' = Booking.status b
  /\ Booking.notes b' = Some (orEmpty (Booking.notes b))
  /\ Booking.code b' = None
  /\ Booking.discount b' = None
  /\ exists service,
       find (fun s => String.eqb (Service.id s) (Booking.serviceId b))
            (Page.services st) = Some service
       /\ Booking.serviceName b' = Service.name service
       /\ Booking.duration b' = Service.duration service
       /\ Booking.totalAmount b' = Service.price service.
Proof.
  intros Hid Hin.
  assert (Hedit : editingId (openEditModal st b) = Some (Booking.id b)).
  { unfold editingId, openEditModal. cbn [Page.isEditing Page.currentId].
    apply isEmptyString_false in Hid. rewrite Hid. reflexivity. }
  destruct (selectedService (openEditModal st b)) as [service|] eqn:Hsvc.
  - assert (Hfind : find (fun s => String.eqb (Service.id s) (Booking.serviceId b))
                         (Page.services st) = Some service) by exact Hsvc.
    assert (Hb' : b' = bookingData (openEditModal st b) service
                                   (Booking.id b) None
                  /\ In (OnUpdateBooking b')
                        (handleSubmit (openEditModal st b) env)).
    { revert Hin. unfold handleSubmit. rewrite Hsvc, Hedit.
      destruct (RoomStatus.isFull (roomStatus (openEditModal st b)));
        destruct (Env.confirmOverbook env);
        destruct (Z.of_nat _ <? _);
        cbn [andb negb app In];
        intros [Hin|Hin];
        repeat (destruct Hin as [Hin|Hin]; try discriminate Hin);
        try contradiction; inversion Hin; split; auto. }
    destruct Hb' as [Hb' Hupd]. split; [exact Hupd|].
    rewrite Hb'. repeat split.
    exists service. repeat split. exact Hfind.
  - exfalso. unfold handleSubmit in Hin. rewrite Hsvc in Hin.
    destruct Hin as [[E|[]]|[E|[]]]; discriminate E.
Qed.

Lemma X5_saving_an_opened_booking_witness :
  let b := discounted in
  let b' := bookingData (openEditModal (creating [discounted] "10:00" []) b)
                        hotStone "7" None in
  In (OnUpdateBooking b')
     (handleSubmit (openEditModal (creating [discounted] "10:00" []) b) env0)
  /\ Booking.id b' = "7"
  /\ Booking.totalAmount b' = 500000
  /\ Booking.discount b' = None.
Proof.
  cbv zeta.
  destruct (X5_saving_an_opened_booking_updates_it
              (creating [discounted] "10:00" []) discounted
              (bookingData (openEditModal (creating [discounted] "10:00" [])
                                          discounted)
                           hotStone "7" None)
              env0)
    as (Hupd & Hid & _ & _ & _ & _ & _ & _ & _ & _ & Hdisc & _).
  - discriminate.
  - right. left. reflexivity.
  - split; [exact Hupd|]. split; [exact Hid|]. split; [reflexivity|].
    exact Hdisc.
Defined.

(* ================================================================== *)
(** ** The shell's collections *)

Lemma map_replace_ids (prev : list Booking.t) (ub : Booking.t) :
  map Booking.id
      (map (fun b => if String.eqb (Booking.id b) (Booking.id ub)
                     then ub else b) prev)
  = map Booking.id prev.
Proof.
  rewrite map_map. apply map_ext. intro b.
  destruct (String.eqb (Booking.id b) (Booking.id ub)) eqn:E;
    [apply String.eqb_eq in E; congruence | reflexivity].
Qed.

(** Whatever the store answers, an update keeps the ids of the collection
    in place (so ids that were distinct stay distinct), changes nothing when
    no record has the updated booking's id, and repeating it changes
    nothing more. *)
Theorem X6_update_keeps_the_ids `{Store}
    (prev : list Booking.t) (updatedBooking : Booking.t) :
  let next := fst (handleUpdateBooking prev updatedBooking) in
  map Booking.id next = map Booking.id prev
  /\ (~ In (Booking.id updatedBooking) (map Booking.id prev) -> next = prev)
  /\ fst (handleUpdateBooking next updatedBooking) = next.
Proof.
  cbv zeta. unfold handleUpdateBooking.
  destruct (update (updatePayload updatedBooking) (Booking.id updatedBooking))
    as [message|] eqn:He; cbn [fst].
  - repeat split; reflexivity.
  - split; [apply map_replace_ids|]. split.
    + intro Hnot. rewrite <- (map_id prev) at 2. apply map_ext_in.
      intros b Hb.
      destruct (String.eqb (Booking.id b) (Booking.id updatedBooking)) eqn:E;
        [|reflexivity].
      apply String.eqb_eq in E. exfalso. apply Hnot. rewrite <- E.
      apply in_map, Hb.
    + rewrite map_map. apply map_ext. intro b.
      destruct (String.eqb (Booking.id b) (Booking.id updatedBooking)) eqn:E;
        [rewrite String.eqb_refl | rewrite E]; reflexivity.
Qed.

Lemma X6_update_keeps_the_ids_witness :
  let ghost := booked "99" "12:00" 60 CONFIRMED in
  fst (@handleUpdateBooking acceptingStore fiveAtTen ghost) = fiveAtTen.
Proof.
  cbv zeta.
  apply (proj1 (proj2 (@X6_update_keeps_the_ids acceptingStore fiveAtTen
                         (booked "99" "12:00" 60 CONFIRMED)))).
  cbn. intuition discriminate.
Defined.

(** When the store accepts a create and returns the payload as the new row,
    the collection grows by one record at its end; that record has the
    row's id and the submitted booking's code, customer, service id, staff
    ids, date, time, duration, status, amount, notes and discount, while its
    service name, primary staff id and staff name are blank; ids that were
    distinct stay distinct when the row's id is new. *)
Theorem X7_create_round_trip `{Store}
    (prev : list Booking.t) (newBooking : Booking.t) (row : Row.t) :
  InsertResponse.error (insert (insertPayload newBooking)) = None ->
  InsertResponse.data (insert (insertPayload newBooking)) = Some row ->
  echoes (insertPayload newBooking) row ->
  exists stored,
    fst (handleAddBooking prev newBooking) = (prev ++ [stored])%list
    /\ Booking.id stored = Row.id row
    /\ stored
       = Booking.mk (Row.id row) (Booking.code newBooking)
           (Booking.customerName newBooking) (Booking.customerPhone newBooking)
           (Booking.serviceId newBooking) EmptyString None
           (Booking.staffIds newBooking) EmptyString
           (Booking.date newBooking) (Booking.time newBooking)
           (Booking.duration newBooking) (Booking.status newBooking)
           (Booking.notes newBooking) (Booking.totalAmount newBooking)
           (Booking.discount newBooking)
    /\ (NoDup (map Booking.id prev) ->
        ~ In (Row.id row) (map Booking.id prev) ->
        NoDup (map Booking.id (fst (handleAddBooking prev newBooking)))).
Proof.
  intros He Hd Hecho. exists (mapped row).
  assert (Hnext : fst (handleAddBooking prev newBooking)
                  = (prev ++ [mapped row])%list).
  { unfold handleAddBooking. rewrite He, Hd. reflexivity. }
  destruct Hecho as (H1 & H2 & H3 & H4 & H5 & H6 & H7 & H8 & H9 & H10
                     & H11 & H12).
  cbn in H1, H2, H3, H4, H5, H6, H7, H8, H9, H10, H11, H12.
  split; [exact Hnext|]. split; [reflexivity|]. split.
  - unfold mapped.
    rewrite H1, H2, H3, H4, H5, H6, H7, H8, H9, H10, H11, H12. reflexivity.
  - intros Hnd Hfresh. rewrite Hnext, map_app. cbn [map].
    apply NoDup_app; [exact Hnd | repeat constructor; intros [] |].
    intros x Hx [E|[]]. subst x. apply Hfresh, Hx.
Qed.

Lemma X7_create_round_trip_witness :
  let newBooking := booked "9" "12:00" 60 CONFIRMED in
  exists stored,
    fst (@handleAddBooking acceptingStore fiveAtTen newBooking)
    = (fiveAtTen ++ [stored])%list
    /\ Booking.id stored = "42"
    /\ Booking.code stored = Booking.code newBooking
    /\ Booking.serviceName stored = EmptyString
    /\ NoDup (map Booking.id
                  (fst (@handleAddBooking acceptingStore fiveAtTen newBooking))).
Proof.
  cbv zeta.
  destruct (@X7_create_round_trip acceptingStore fiveAtTen
              (booked "9" "12:00" 60 CONFIRMED)
              (Row.mk "42" (Some "BK009") "An" "0900000000" "4" (Some ["2"])
                      day "12:00" 60 CONFIRMED 400000 None None))
    as (stored & Hnext & Hid & Hfields & Hnd).
  - reflexivity.
  - reflexivity.
  - repeat split.
  - exists stored. split; [exact Hnext|]. split; [exact Hid|].
    split; [|split].
    + rewrite Hfields. reflexivity.
    + rewrite Hfields. reflexivity.
    + apply Hnd.
      * repeat constructor; cbn; intuition discriminate.
      * cbn. intuition discriminate.
Defined.

(* ================================================================== *)
(** ** Enrichment of the bookings for display *)

Lemma filter_map_commute {A : Type} (f : A -> A) (p : A -> bool) (l : list A) :
  (forall x, p (f x) = p x) ->
  filter p (map f l) = map f (filter p l).
Proof.
  intro Hp. induction l as [|x l IH]; [reflexivity|].
  cbn [map filter]. rewrite Hp, IH. destruct (p x); reflexivity.
Qed.

Lemma find_map_commute {A : Type} (f : A -> A) (p : A -> bool) (l : list A) :
  (forall x, p (f x) = p x) ->
  find p (map f l) = option_map f (find p l).
Proof.
  intro Hp. induction l as [|x l IH]; [reflexivity|].
  cbn [map find]. rewrite Hp, IH. destruct (p x); reflexivity.
Qed.

(** Enrichment changes the service name and the staff name of a booking and
    nothing else; both names come out non-empty; the service name is the
    name of the service the booking refers to when that service is known
    and named, and otherwise the booking's own service name when it has
    one. *)
Theorem X8_enrichment_fills_the_names_only
    (services : list Service.t) (employees : list Employee.t)
    (b : Booking.t) :
  let e := enrich services employees b in
  e = Booking.mk (Booking.id b) (Booking.code b) (Booking.customerName b)
        (Booking.customerPhone b) (Booking.serviceId b)
        (Booking.serviceName e) (Booking.staffId b) (Booking.staffIds b)
        (Booking.staffName e) (Booking.date b) (Booking.time b)
        (Booking.duration b) (Booking.status b) (Booking.notes b)
        (Booking.totalAmount b) (Booking.discount b)
  /\ Booking.serviceName e <> EmptyString
  /\ Booking.staffName e <> EmptyString
  /\ (forall s,
        find (fun s => String.eqb (Service.id s) (Booking.serviceId b)) services
        = Some s ->
        Service.name s <> EmptyString ->
        Booking.serviceName e = Service.name s)
  /\ (find (fun s => String.eqb (Service.id s) (Booking.serviceId b)) services
      = None ->
      Booking.serviceName b <> EmptyString ->
      Booking.serviceName e = Booking.serviceName b).
Proof.
  cbv zeta. split; [reflexivity|]. unfold enrich. cbn [Booking.serviceName
    Booking.staffName].
  assert (Hfallback :
    (if isEmptyString (Booking.serviceName b) then "Unknown Service"
     else Booking.serviceName b) <> EmptyString).
  { destruct (isEmptyString (Booking.serviceName b)) eqn:E;
      [discriminate | apply isEmptyString_false, E]. }
  split; [|split; [|split]].
  - destruct (find _ services) as [s|]; [|exact Hfallback].
    destruct (isEmptyString (Service.name s)) eqn:E;
      [exact Hfallback | apply isEmptyString_false, E].
  - destruct (isEmptyString (staffNamesOf employees b)) eqn:E;
      [discriminate | apply isEmptyString_false, E].
  - intros s Hs Hname. rewrite Hs.
    apply isEmptyString_false in Hname. rewrite Hname. reflexivity.
  - intros Hnone Hname. rewrite Hnone.
    apply isEmptyString_false in Hname. rewrite Hname. reflexivity.
Qed.

Lemma X8_enrichment_witness :
  let b := Booking.mk "42" (Some "BK009") "An" "0900000000" "4" "" None
                      (Some ["2"; "8"]) "" day "12:00" 60 CONFIRMED None
                      400000 None in
  Booking.serviceName (enrich [massage60; hotStone] [minh] b)
  = "Massage Aroma 60".
Proof.
  cbv zeta.
  apply (proj1 (proj2 (proj2 (proj2
           (X8_enrichment_fills_the_names_only [massage60; hotStone] [minh]
              (Booking.mk "42" (Some "BK009") "An" "0900000000" "4" "" None
                          (Some ["2"; "8"]) "" day "12:00" 60 CONFIRMED None
                          400000 None)))))
         massage60).
  - reflexivity.
  - discriminate.
Defined.

(** The shell hands the pages the enriched bookings: the answers of the
    room check of either page and of the staff check of the operations page
    are the same on the enriched collection as on the stored one. *)
Theorem X9_availability_ignores_enrichment
    (services : list Service.t) (employees : list Employee.t)
    (ops : Ops.Page.t) (st : Page.t) (checkTime : string) (duration : Z)
    (staffId : string) :
  Ops.getRoomAvailability
    (opsWithBookings ops
       (enrichedBookings services employees (Ops.Page.bookings ops)))
    checkTime duration
  = Ops.getRoomAvailability ops checkTime duration
  /\ getRoomAvailability
       (Page.with_bookings st
          (enrichedBookings services employees (Page.bookings st)))
       checkTime duration
     = getRoomAvailability st checkTime duration
  /\ Ops.checkStaffAvailability
       (opsWithBookings ops
          (enrichedBookings services employees (Ops.Page.bookings ops)))
       staffId
     = Ops.checkStaffAvailability ops staffId.
Proof.
  split; [|split].
  - assert (H : Ops.overlappingBookings
                  (opsWithBookings ops
                     (enrichedBookings services employees
                        (Ops.Page.bookings ops)))
                  checkTime duration
                = map (enrich services employees)
                      (Ops.overlappingBookings ops checkTime duration)).
    { unfold Ops.overlappingBookings, enrichedBookings.
      cbn [Ops.Page.bookings Ops.Page.formData opsWithBookings].
      rewrite filter_map_commute by reflexivity.
      rewrite filter_map_commute by reflexivity. reflexivity. }
    unfold Ops.getRoomAvailability. rewrite H, length_map. reflexivity.
  - assert (H : overlappingBookings
                  (Page.with_bookings st
                     (enrichedBookings services employees (Page.bookings st)))
                  checkTime duration
                = map (enrich services employees)
                      (overlappingBookings st checkTime duration)).
    { unfold overlappingBookings, enrichedBookings.
      cbn [Page.bookings Page.with_bookings].
      rewrite filter_map_commute by reflexivity.
      rewrite filter_map_commute by reflexivity. reflexivity. }
    unfold getRoomAvailability. rewrite H, length_map. reflexivity.
  - unfold Ops.checkStaffAvailability, enrichedBookings.
    change (Ops.selectedService (opsWithBookings ops _))
      with (Ops.selectedService ops).
    destruct (Ops.selectedService ops) as [service|]; [|reflexivity].
    cbn [Ops.Page.bookings Ops.Page.formData opsWithBookings].
    destruct (isEmptyString _); [reflexivity|].
    rewrite filter_map_commute by reflexivity.
    rewrite find_map_commute by reflexivity.
    destruct (find _ _); reflexivity.
Qed.

(* ================================================================== *)
(** ** The operations page: the room check *)

Lemma ops_isBlocking_spec (s : BookingStatus) : Ops.isBlocking s = isBlocking s.
Proof. destruct s; reflexivity. Qed.



Lemma ops_overlappingBookings_counted (st : Ops.Page.t) (checkTime : string)
    (duration : Z) :
  Ops.overlappingBookings st checkTime duration
  = filter (opsCountedFor isBlocking st checkTime duration)
           (Ops.Page.bookings st).
Proof.
  unfold Ops.overlappingBookings. rewrite filter_twice.
  apply filter_ext. intro b.
  unfold Ops.overlapping, opsCountedFor, overlaps.
  rewrite ops_isBlocking_spec.
  destruct (String.eqb _ _); cbn [andb]; [|reflexivity].
  destruct (Ops.isSelf st b); cbn [negb andb];
    [rewrite andb_false_r; reflexivity|].
  destruct (isBlocking (Booking.status b)); cbn [negb andb]; [|reflexivity].
  destruct (timeToMinutes checkTime), (timeToMinutes (Booking.time b));
    reflexivity.
Qed.




(** On the same collection, date and booking under edit, the bookings the
    operations page counts are those the booking page counts less the
    Completed ones: it never reports more occupied rooms, and a window the
    booking page finds available is available on the operations page. *)
Theorem X11_operations_page_counts_no_more_than_the_booking_page
    (st : Page.t) (ops : Ops.Page.t) (checkTime : string) (duration : Z) :
  sameView st ops ->
  Ops.overlappingBookings ops checkTime duration
  = filter (fun b => negb (BookingStatus_eqb (Booking.status b) COMPLETED))
           (overlappingBookings st checkTime duration)
  /\ (Availability.occupiedCount (Ops.getRoomAvailability ops checkTime duration)
      <= Availability.occupiedCount (getRoomAvailability st checkTime duration))%nat
  /\ (Availability.isAvailable (getRoomAvailability st checkTime duration) = true ->
      Availability.isAvailable (Ops.getRoomAvailability ops checkTime duration)
      = true).
Proof.
  intros (Hb & Hd & He & Hc).
  assert (Heq : Ops.overlappingBookings ops checkTime duration
    = filter (fun b => negb (BookingStatus_eqb (Booking.status b) COMPLETED))
             (overlappingBookings st checkTime duration)).
  { rewrite ops_overlappingBookings_counted, overlappingBookings_counted,
      filter_twice, <- Hb.
    apply filter_ext. intro b.
    unfold opsCountedFor, countedFor, Ops.isSelf, notCancelled.
    rewrite <- Hd, <- He, <- Hc.
    destruct (String.eqb _ _); cbn [andb]; [|reflexivity].
    destruct (Page.isEditing st && idIs b (Page.currentId st));
      cbn [negb andb]; [rewrite !andb_false_r; reflexivity|].
    rewrite !andb_true_r.
    destruct (Booking.status b); cbn;
      destruct (timeToMinutes checkTime), (timeToMinutes (Booking.time b));
      try reflexivity; destruct (overlaps _ _ _ _); reflexivity. }
  assert (Hle : (List.length (Ops.overlappingBookings ops checkTime duration)
                 <= List.length (overlappingBookings st checkTime duration))%nat).
  { rewrite Heq. apply filter_length_le. }
  split; [exact Heq|]. split; [exact Hle|].
  intro Ha. apply isAvailable_iff in Ha.
  unfold Ops.getRoomAvailability. cbn [Availability.isAvailable].
  apply Nat.ltb_lt. lia.
Qed.

Lemma X11_operations_page_witness :
  let bs := booked "8" "10:00" 60 COMPLETED :: fiveAtTen in
  (Availability.occupiedCount
     (Ops.getRoomAvailability (opsCreating bs "4" "10:00" ["2"] (Num 0))
                              "10:00" 60)
   <= Availability.occupiedCount
        (getRoomAvailability (creating bs "10:00" ["2"]) "10:00" 60))%nat.
Proof.
  cbv zeta.
  apply (proj1 (proj2
           (X11_operations_page_counts_no_more_than_the_booking_page
              (creating (booked "8" "10:00" 60 COMPLETED :: fiveAtTen)
                        "10:00" ["2"])
              (opsCreating (booked "8" "10:00" 60 COMPLETED :: fiveAtTen)
                           "4" "10:00" ["2"] (Num 0))
              "10:00" 60
              (conj eq_refl (conj eq_refl (conj eq_refl eq_refl)))))).
Defined.

(* ================================================================== *)
(** ** The operations page: submission *)

Ltac ops_submit_cases st env service Hsvc :=
  unfold Ops.handleSubmit; rewrite Hsvc;
  destruct (Ops.shouldCheckRoom st service) eqn:?Hcheck;
  destruct (RoomStatus.isFull (Ops.roomStatus st)) eqn:?Hfull;
  destruct (Env.confirmOverbook env) eqn:?Hconfirm;
  destruct (Z.of_nat (List.length (Ops.validStaffIds st))
            <? Service.staffCount service) eqn:?Hstaff;
  destruct (Ops.editingId st) as [?cid|] eqn:?Hedit;
  cbn [andb negb app existsb isCallback isRoomWarning orb In].



Lemma ops_unchanged_edit_submits
    (st : Ops.Page.t) (env : Env.t) (original : Booking.t)
    (service : Service.t) :
  Ops.editingId st = Some (Booking.id original) ->
  find (fun b => String.eqb (Booking.id b) (Booking.id original))
       (Ops.Page.bookings st) = Some original ->
  Ops.selectedService st = Some service ->
  Booking.date original = Ops.Form.date (Ops.Page.formData st) ->
  Booking.time original = Ops.Form.time (Ops.Page.formData st) ->
  Booking.duration original = Service.duration service ->
  existsb isRoomWarning (Ops.handleSubmit st env) = false
  /\ (Service.staffCount service
      <= Z.of_nat (List.length (Ops.validStaffIds st)) ->
      Ops.handleSubmit st env
      = [OnUpdateBooking
           (Ops.bookingData st service (Booking.id original) None);
         SetIsModalOpen false]).
Proof.
  intros Hedit Hfind Hsvc Hd Ht Hdur.
  assert (Hcheck : Ops.shouldCheckRoom st service = false).
  { unfold Ops.shouldCheckRoom. rewrite Hedit, Hfind, Hd, Ht, Hdur.
    rewrite !String.eqb_refl, Z.eqb_refl. reflexivity. }
  unfold Ops.handleSubmit. rewrite Hsvc, Hcheck, Hedit. cbn [andb].
  split.
  - destruct (Z.of_nat _ <? _); reflexivity.
  - intro Hstaff. apply Z.ltb_ge in Hstaff. rewrite Hstaff. reflexivity.
Qed.

(** While a stored booking is edited with its date, start time and duration
    unchanged (the selected service has the stored duration), a submission
    on the operations page never raises the room-full warning, however many
    rooms are occupied, and with enough staff selected it calls the update
    callback whatever the user would have answered. *)
Theorem X13_unchanged_edit_skips_the_room_check
    (st : Ops.Page.t) (env : Env.t) (original : Booking.t)
    (service : Service.t) :
  Ops.editingId st = Some (Booking.id original) ->
  find (fun b => String.eqb (Booking.id b) (Booking.id original))
       (Ops.Page.bookings st) = Some original ->
  Ops.selectedService st = Some service ->
  Booking.date original = Ops.Form.date (Ops.Page.formData st) ->
  Booking.time original = Ops.Form.time (Ops.Page.formData st) ->
  Booking.duration original = Service.duration service ->
  existsb isRoomWarning (Ops.handleSubmit st env) = false
  /\ (Service.staffCount service
      <= Z.of_nat (List.length (Ops.validStaffIds st)) ->
      Ops.handleSubmit st env
      = [OnUpdateBooking
           (Ops.bookingData st service (Booking.id original) None);
         SetIsModalOpen false]).
Proof. apply ops_unchanged_edit_submits. Qed.

Lemma X13_unchanged_edit_witness :
  let b := booked "1" "10:00" 60 CONFIRMED in
  let st := opsEditing sixAtTen b COMPLETED in
  RoomStatus.isFull (Ops.roomStatus st) = true
  /\ existsb isRoomWarning (Ops.handleSubmit st env0) = false
  /\ Ops.handleSubmit st (Env.mk false "0")
     = [OnUpdateBooking (Ops.bookingData st massage60 "1" None);
        SetIsModalOpen false].
Proof.
  cbv zeta. split; [reflexivity|]. split.
  - apply (proj1 (X13_unchanged_edit_skips_the_room_check
                    (opsEditing sixAtTen (booked "1" "10:00" 60 CONFIRMED)
                                COMPLETED)
                    env0 (booked "1" "10:00" 60 CONFIRMED) massage60
                    eq_refl eq_refl eq_refl eq_refl eq_refl eq_refl)).
  - apply (proj2 (X13_unchanged_edit_skips_the_room_check
                    (opsEditing sixAtTen (booked "1" "10:00" 60 CONFIRMED)
                                COMPLETED)
                    (Env.mk false "0") (booked "1" "10:00" 60 CONFIRMED)
                    massage60
                    eq_refl eq_refl eq_refl eq_refl eq_refl eq_refl)).
    discriminate.
Defined.

(** On the operations page a submission calls a persistence callback
    exactly when the service is resolved, enough staff ids are counted, and
    the room check is skipped, passes, or was overridden by the user; the
    room-full warning is raised exactly when the check is due and the rooms
    are full.  Nothing else is consulted: the staff availability shown in
    the form plays no part. *)
Theorem X14_operations_submission_is_accepted_exactly_when
    (st : Ops.Page.t) (env : Env.t) :
  let effects := Ops.handleSubmit st env in
  (existsb isCallback effects = true
   <-> exists service,
         Ops.selectedService st = Some service
         /\ (Ops.shouldCheckRoom st service = false
             \/ RoomStatus.isFull (Ops.roomStatus st) = false
             \/ Env.confirmOverbook env = true)
         /\ Service.staffCount service
            <= Z.of_nat (List.length (Ops.validStaffIds st)))
  /\ (existsb isRoomWarning effects = true
      <-> exists service,
            Ops.selectedService st = Some service
            /\ Ops.shouldCheckRoom st service = true
            /\ RoomStatus.isFull (Ops.roomStatus st) = true)
  /\ (List.length (filter isCallback effects) <= 1)%nat.
Proof.
  cbv zeta.
  destruct (Ops.selectedService st) as [service|] eqn:Hsvc.
  - split; [|split].
    + split.
      * intro Hcall. exists service. split; [reflexivity|].
        revert Hcall. ops_submit_cases st env service Hsvc;
          intro Hcall; try discriminate Hcall;
          (split; [auto | apply Z.ltb_ge; assumption]).
      * intros (svc & E & Hroom & Hstaff). inversion E. subst svc.
        apply Z.ltb_ge in Hstaff.
        ops_submit_cases st env service Hsvc; try reflexivity;
          try congruence; destruct Hroom as [|[|]]; congruence.
    + split.
      * intro Hw. exists service. split; [reflexivity|].
        revert Hw. ops_submit_cases st env service Hsvc;
          intro Hw; try discriminate Hw; auto.
      * intros (svc & E & Hc & Hf). inversion E. subst svc.
        ops_submit_cases st env service Hsvc; try reflexivity; congruence.
    + ops_submit_cases st env service Hsvc; cbn; lia.
  - unfold Ops.handleSubmit. rewrite Hsvc. cbn. split; [|split].
    + split; [discriminate|]. intros (svc & E & _). discriminate E.
    + split; [discriminate|]. intros (svc & E & _). discriminate E.
    + lia.
Qed.



(* ================================================================== *)
(** ** The operations page: staff availability *)

Lemma ops_isAssigned_true (b : Booking.t) (staffId : string) :
  Ops.isAssigned b staffId = true <-> assignedTo b staffId.
Proof.
  unfold Ops.isAssigned, assignedTo. rewrite orb_true_iff. split.
  - intros [H|H].
    + left. destruct (Booking.staffIds b) as [ids|]; [|discriminate].
      exists ids. split; [reflexivity|].
      apply existsb_exists in H. destruct H as (x & Hx & E).
      apply String.eqb_eq in E. subst x. exact Hx.
    + right. destruct (Booking.staffId b) as [s|]; [|discriminate].
      apply String.eqb_eq in H. subst s. reflexivity.
  - intros [(ids & E & Hin)|E].
    + left. rewrite E. apply existsb_exists. exists staffId.
      split; [exact Hin | apply String.eqb_refl].
    + right. rewrite E. apply String.eqb_refl.
Qed.





(* ================================================================== *)
(** ** The operations page: room allocation for the timeline *)

Lemma insertByTime_perm (cmp : string -> string -> comparison)
    (x : Booking.t) (l : list Booking.t) :
  Permutation (Ops.insertByTime cmp x l) (x :: l).
Proof.
  induction l as [|y l IH]; cbn [Ops.insertByTime]; [reflexivity|].
  destruct (cmp (Booking.time x) (Booking.time y)); try reflexivity.
  rewrite IH. apply perm_swap.
Qed.

Lemma sortByTime_perm (cmp : string -> string -> comparison)
    (l : list Booking.t) :
  Permutation (Ops.sortByTime cmp l) l.
Proof.
  induction l as [|x l IH]; cbn [Ops.sortByTime]; [reflexivity|].
  rewrite insertByTime_perm, IH. reflexivity.
Qed.

Lemma assignRoom_Some (start end_ : number) (free free' : list number)
    (i : nat) :
  Ops.assignRoom start end_ free = Some (i, free') ->
  exists s f0,
    start = Num s
    /\ nth_error free i = Some (Num f0)
    /\ f0 <= s
    /\ nth_error free' i = Some end_
    /\ List.length free' = List.length free
    /\ forall j, j <> i -> nth_error free' j = nth_error free j.
Proof.
  revert i free'. induction free as [|f free IH]; intros i free' H;
    cbn [Ops.assignRoom] in H; [discriminate H|].
  destruct (Ops.num_ge start f) eqn:Hge.
  - inversion H. subst i free'. clear H.
    destruct start as [|s]; [discriminate Hge|].
    destruct f as [|f0]; [discriminate Hge|].
    cbn in Hge. apply Z.leb_le in Hge.
    exists s, f0. repeat split; try assumption.
    intros j Hj. destruct j; [contradiction | reflexivity].
  - destruct (Ops.assignRoom start end_ free) as [[k rest']|] eqn:Hrec;
      [|discriminate H].
    inversion H. subst i free'. clear H.
    destruct (IH k rest' eq_refl) as (s & f0 & Hs & Hn & Hle & Hn' & Hlen & Hoth).
    exists s, f0. repeat split; try assumption.
    + cbn. rewrite Hlen. reflexivity.
    + intros j Hj. destruct j; [reflexivity|]. cbn. apply Hoth. congruence.
Qed.

Lemma roomOf_cons (alloc : Ops.Allocation) (k id : string) (r : nat) :
  Ops.roomOf ((k, r) :: alloc) id
  = if String.eqb k id then Some r else Ops.roomOf alloc id.
Proof. reflexivity. Qed.








Lemma assignRoom_None_all_busy (s : Z) (end_ : number) (free : list number) :
  Ops.assignRoom (Num s) end_ free = None ->
  0 <= s ->
  busyRooms free = List.length free.
Proof.
  intros H Hs. induction free as [|f free IH]; [reflexivity|].
  cbn [Ops.assignRoom] in H.
  destruct (Ops.num_ge (Num s) f) eqn:Hge; [discriminate H|].
  destruct (Ops.assignRoom (Num s) end_ free) as [[k rest]|] eqn:Hrec;
    [discriminate H|].
  unfold busyRooms in *. cbn [filter].
  destruct f as [|z]; [cbn; rewrite IH; reflexivity|].
  destruct z; [cbn in Hge; apply Z.leb_gt in Hge; lia | |];
    cbn; rewrite IH; reflexivity.
Qed.

Lemma assignRoom_Some_busy (start end_ : number) (free free' : list number)
    (i : nat) :
  Ops.assignRoom start end_ free = Some (i, free') ->
  (busyRooms free' <= S (busyRooms free))%nat.
Proof.
  revert i free'. induction free as [|f free IH]; intros i free' H;
    cbn [Ops.assignRoom] in H; [discriminate H|].
  destruct (Ops.num_ge start f).
  - inversion H. subst. unfold busyRooms. cbn [filter].
    destruct end_ as [|[| |]]; destruct f as [|[| |]]; cbn; lia.
  - destruct (Ops.assignRoom start end_ free) as [[k rest]|] eqn:Hrec;
      [|discriminate H].
    inversion H. subst. specialize (IH k rest eq_refl).
    unfold busyRooms in *. cbn [filter].
    destruct f as [|[| |]]; cbn; lia.
Qed.

Lemma busyRooms_le (free : list number) :
  (busyRooms free <= List.length free)%nat.
Proof. apply filter_length_le. Qed.

Lemma allocateOne_places (done : list Booking.t)
    (acc : Ops.Allocation * list number) (c : Booking.t) (s : Z) :
  allPlaced done acc ->
  (List.length done < TOTAL_ROOMS)%nat ->
  timeToMinutes (Booking.time c) = Num s ->
  0 <= s ->
  allPlaced (done ++ [c]) (Ops.allocateOne acc c).
Proof.
  destruct acc as [alloc free].
  intros (Hlen & Hbusy & Hall) Hfew Hs Hpos.
  unfold Ops.allocateOne. rewrite Hs.
  destruct (Ops.assignRoom (Num s) _ free) as [[i free']|] eqn:Hassign.
  - destruct (assignRoom_Some _ _ _ _ _ Hassign)
      as (s' & f0 & _ & Hni & _ & _ & Hlen' & _).
    pose proof (assignRoom_Some_busy _ _ _ _ _ Hassign) as Hb.
    assert (Hi : (i < TOTAL_ROOMS)%nat).
    { rewrite <- Hlen. apply nth_error_Some. rewrite Hni. discriminate. }
    split; [congruence|]. split.
    + rewrite length_app. cbn [List.length]. lia.
    + intros x Hx. rewrite roomOf_cons.
      destruct (String.eqb (Booking.id c) (Booking.id x)) eqn:E;
        [exists i; auto|].
      apply in_app_or in Hx. destruct Hx as [Hx|[Hx|[]]];
        [apply Hall, Hx|].
      subst x. rewrite String.eqb_refl in E. discriminate E.
  - exfalso.
    pose proof (assignRoom_None_all_busy _ _ _ Hassign Hpos) as Hfull.
    lia.
Qed.

Lemma allocate_fold_places (rest done : list Booking.t)
    (acc : Ops.Allocation * list number) :
  allPlaced done acc ->
  (List.length (done ++ rest) <= TOTAL_ROOMS)%nat ->
  (forall x, In x rest ->
     exists s, timeToMinutes (Booking.time x) = Num s /\ 0 <= s) ->
  allPlaced (done ++ rest) (fold_left Ops.allocateOne rest acc).
Proof.
  revert done acc. induction rest as [|c rest IH]; intros done acc Hp Hlen Hread.
  - rewrite app_nil_r. exact Hp.
  - cbn [fold_left].
    replace (done ++ c :: rest)%list with ((done ++ [c]) ++ rest)%list
      by (rewrite <- app_assoc; reflexivity).
    destruct (Hread c (or_introl eq_refl)) as (s & Hs & Hpos).
    apply IH.
    + apply (allocateOne_places done acc c s Hp); try assumption.
      rewrite length_app in Hlen. cbn [List.length] in Hlen. lia.
    + rewrite <- app_assoc. exact Hlen.
    + intros x Hx. apply Hread. right. exact Hx.
Qed.

(** Whatever the collation, when the day has at most [TOTAL_ROOMS] bookings
    that are not cancelled and each has a readable start time, every one of
    them is given a room on the timeline. *)
Theorem X18_few_bookings_all_get_a_room
    (localeCompare : string -> string -> comparison) (st : Ops.Page.t) :
  (List.length (Ops.timelineBookings st) <= TOTAL_ROOMS)%nat ->
  (forall x, In x (Ops.timelineBookings st) ->
     exists s, timeToMinutes (Booking.time x) = Num s /\ 0 <= s) ->
  forall x, In x (Ops.timelineBookings st) ->
    exists r,
      Ops.roomOf (Ops.roomAllocations localeCompare st) (Booking.id x) = Some r
      /\ (r < TOTAL_ROOMS)%nat.
Proof.
  intros Hfew Hread x Hx.
  set (sorted := Ops.sortByTime localeCompare (Ops.timelineBookings st)).
  assert (Hperm : Permutation sorted (Ops.timelineBookings st))
    by apply sortByTime_perm.
  assert (Hp : allPlaced sorted (Ops.allocate sorted)).
  { unfold Ops.allocate.
    apply (allocate_fold_places sorted [] ([], repeat (Num 0) TOTAL_ROOMS)).
    - split; [apply repeat_length|]. split; [cbn; lia | intros y []].
    - cbn [app]. rewrite (Permutation_length Hperm). exact Hfew.
    - intros y Hy. apply Hread. apply (Permutation_in _ Hperm Hy). }
  unfold Ops.roomAllocations. fold sorted.
  destruct (Ops.allocate sorted) as [alloc free].
  destruct Hp as (_ & _ & Hall). cbn [fst].
  apply Hall. apply (Permutation_in _ (Permutation_sym Hperm) Hx).
Qed.

Lemma X18_few_bookings_witness :
  let st := opsCreating fiveAtTen "4" "10:00" [] (Num 0) in
  exists r,
    Ops.roomOf (Ops.roomAllocations String.compare st) "5" = Some r
    /\ (r < TOTAL_ROOMS)%nat.
Proof.
  cbv zeta.
  apply (fun Hfew Hread =>
           X18_few_bookings_all_get_a_room String.compare
             (opsCreating fiveAtTen "4" "10:00" [] (Num 0)) Hfew Hread
             (booked "5" "10:00" 60 CONFIRMED)).
  - cbn. repeat constructor.
  - intros x Hx. cbn in Hx.
    repeat (destruct Hx as [Hx|Hx];
            [subst x; exists 600; split; [reflexivity | discriminate]|]).
    contradiction.
  - cbn. intuition.
Defined.

(* ================================================================== *)
(** ** The operations page: the next free slot of the form *)

Lemma ops_scanSlots_first (st : Ops.Page.t) (duration : Z)
    (slots : list TimeSlot.t) :
  match Ops.scanSlots st duration slots with
  | Some label =>
      exists j slot,
        nth_error slots j = Some slot
        /\ TimeSlot.time slot = label
        /\ opsAvailableAt st duration slot = true
        /\ forall k s, (k < j)%nat -> nth_error slots k = Some s ->
                       opsAvailableAt st duration s = false
  | None =>
      forall k s, nth_error slots k = Some s ->
                  opsAvailableAt st duration s = false
  end.
Proof.
  induction slots as [|slot rest IH]; cbn [Ops.scanSlots].
  - intros k s Hk. destruct k; discriminate Hk.
  - change (Availability.isAvailable
              (Ops.getRoomAvailability st (TimeSlot.time slot) duration))
      with (opsAvailableAt st duration slot).
    destruct (opsAvailableAt st duration slot) eqn:Ea.
    + exists O, slot. repeat split; try assumption. intros k s Hk. lia.
    + destruct (Ops.scanSlots st duration rest) as [label|].
      * destruct IH as (j & s & Hj & Hl & Hav & Hbefore).
        exists (S j), s. repeat split; try assumption.
        intros k s' Hk Hn. destruct k as [|k]; cbn in Hn.
        -- inversion Hn. subst s'. exact Ea.
        -- apply (Hbefore k s'); [lia | exact Hn].
      * intros k s Hn. destruct k as [|k]; cbn in Hn.
        -- inversion Hn. subst s. exact Ea.
        -- apply (IH k s Hn).
Qed.

(** On the operations page, when the form's start time is the slot at index
    [i] and no room is available there for the selected service, the form
    reports the rooms full and suggests the first slot after it at which
    fewer than [TOTAL_ROOMS] blocking bookings overlap, or nothing when
    there is none up to 22:00; a start time that is not a slot label gets
    no suggestion. *)
Theorem X19_operations_next_slot_is_first_available
    (st : Ops.Page.t) (service : Service.t) :
  Ops.selectedService st = Some service ->
  Ops.Form.time (Ops.Page.formData st) <> EmptyString ->
  Availability.isAvailable
    (Ops.getRoomAvailability st (Ops.Form.time (Ops.Page.formData st))
                             (Service.duration service)) = false ->
  RoomStatus.isFull (Ops.roomStatus st) = true
  /\ (forall i,
        findIndex (fun t => String.eqb (TimeSlot.time t)
                                       (Ops.Form.time (Ops.Page.formData st)))
                  Ops.ALL_TIME_SLOTS = Some i ->
        match RoomStatus.nextTime (Ops.roomStatus st) with
        | Some label =>
            exists j slot,
              (i < j)%nat
              /\ nth_error Ops.ALL_TIME_SLOTS j = Some slot
              /\ TimeSlot.time slot = label
              /\ opsAvailableAt st (Service.duration service) slot = true
              /\ forall k s, (i < k < j)%nat ->
                   nth_error Ops.ALL_TIME_SLOTS k = Some s ->
                   opsAvailableAt st (Service.duration service) s = false
        | None =>
            forall k s, (i < k)%nat ->
              nth_error Ops.ALL_TIME_SLOTS k = Some s ->
              opsAvailableAt st (Service.duration service) s = false
        end)
  /\ (findIndex (fun t => String.eqb (TimeSlot.time t)
                                     (Ops.Form.time (Ops.Page.formData st)))
                Ops.ALL_TIME_SLOTS = None ->
      RoomStatus.nextTime (Ops.roomStatus st) = None).
Proof.
  intros Hsvc Htime Hfull.
  apply isEmptyString_false in Htime.
  unfold Ops.roomStatus. rewrite Hsvc, Htime, Hfull.
  cbn [RoomStatus.isFull RoomStatus.nextTime].
  split; [reflexivity|]. split.
  - intros i Hidx. rewrite Hidx.
    pose proof (ops_scanSlots_first st (Service.duration service)
                  (skipn (S i) Ops.ALL_TIME_SLOTS)) as Hscan.
    destruct (Ops.scanSlots st (Service.duration service)
                            (skipn (S i) Ops.ALL_TIME_SLOTS)) as [label|].
    + destruct Hscan as (j & slot & Hj & Hl & Hav & Hbefore).
      rewrite nth_error_skipn in Hj.
      exists (S i + j)%nat, slot. repeat split; try assumption; [lia|].
      intros k s Hk Hn.
      apply (Hbefore (k - S i)%nat s); [lia|].
      rewrite nth_error_skipn. replace (S i + (k - S i))%nat with k by lia.
      exact Hn.
    + intros k s Hk Hn.
      apply (Hscan (k - S i)%nat s).
      rewrite nth_error_skipn. replace (S i + (k - S i))%nat with k by lia.
      exact Hn.
  - intro Hnone. rewrite Hnone. reflexivity.
Qed.

Lemma X19_operations_next_slot_witness :
  let st := opsCreating busyMorning "4" "10:00" ["2"] (Num 0) in
  RoomStatus.isFull (Ops.roomStatus st) = true
  /\ RoomStatus.nextTime (Ops.roomStatus st) = Some "11:00".
Proof.
  cbv zeta.
  destruct (X19_operations_next_slot_is_first_available
              (opsCreating busyMorning "4" "10:00" ["2"] (Num 0)) massage60)
    as (Hfull & _ & _).
  - reflexivity.
  - discriminate.
  - reflexivity.
  - split; [exact Hfull | reflexivity].
Defined.

(* ================================================================== *)
(** ** Enrichment and the timeline *)

Lemma insertByTime_map (cmp : string -> string -> comparison)
    (f : Booking.t -> Booking.t) (x : Booking.t) (l : list Booking.t) :
  (forall b, Booking.time (f b) = Booking.time b) ->
  Ops.insertByTime cmp (f x) (map f l) = map f (Ops.insertByTime cmp x l).
Proof.
  intro Hf. induction l as [|y l IH]; [reflexivity|].
  cbn [Ops.insertByTime map]. rewrite !Hf.
  destruct (cmp (Booking.time x) (Booking.time y)); try reflexivity.
  cbn [map]. rewrite <- IH. reflexivity.
Qed.

Lemma sortByTime_map (cmp : string -> string -> comparison)
    (f : Booking.t -> Booking.t) (l : list Booking.t) :
  (forall b, Booking.time (f b) = Booking.time b) ->
  Ops.sortByTime cmp (map f l) = map f (Ops.sortByTime cmp l).
Proof.
  intro Hf. induction l as [|x l IH]; [reflexivity|].
  cbn [Ops.sortByTime map]. rewrite IH. apply insertByTime_map, Hf.
Qed.

Lemma fold_allocateOne_enrich (services : list Service.t)
    (employees : list Employee.t) (l : list Booking.t)
    (acc : Ops.Allocation * list number) :
  fold_left Ops.allocateOne (map (enrich services employees) l) acc
  = fold_left Ops.allocateOne l acc.
Proof.
  revert acc. induction l as [|x l IH]; intro acc; [reflexivity|].
  cbn [map fold_left].
  change (Ops.allocateOne acc (enrich services employees x))
    with (Ops.allocateOne acc x).
  apply IH.
Qed.

(** The timeline's room allocation is the same on the enriched collection
    the shell hands to the page as on the stored one, whatever the
    collation. *)
Theorem X20_allocation_ignores_enrichment
    (localeCompare : string -> string -> comparison)
    (services : list Service.t) (employees : list Employee.t)
    (st : Ops.Page.t) :
  Ops.roomAllocations localeCompare
    (opsWithBookings st
       (enrichedBookings services employees (Ops.Page.bookings st)))
  = Ops.roomAllocations localeCompare st.
Proof.
  unfold Ops.roomAllocations, Ops.allocate.
  assert (Ht : Ops.timelineBookings
                 (opsWithBookings st
                    (enrichedBookings services employees
                       (Ops.Page.bookings st)))
               = map (enrich services employees) (Ops.timelineBookings st)).
  { unfold Ops.timelineBookings, Ops.bookingsForCurrentDate, enrichedBookings.
    cbn [Ops.Page.bookings Ops.Page.currentDate opsWithBookings].
    rewrite filter_map_commute by reflexivity.
    rewrite filter_map_commute by reflexivity. reflexivity. }
  rewrite Ht, sortByTime_map by reflexivity.
  rewrite fold_allocateOne_enrich. reflexivity.
Qed.

(* ================================================================== *)
(** ** The employee collection *)

(** A successful employee insert puts the row the store returned first in
    the collection; a successful delete removes exactly the employees with
    the id, keeping the others in order, after which a booking whose only
    staff id is the deleted one is displayed as unassigned; a refused insert
    or delete leaves the collection unchanged. *)
Theorem X21_employee_collection_follows_the_store `{EmployeeStore}
    (prev : list Employee.t) (newEmp : Employee.t) (id : string) :
  (forall data,
      insertEmployee (employeePayload newEmp) = (Some data, None) ->
      handleAddEmployee prev newEmp = data :: prev)
  /\ (forall data message,
        insertEmployee (employeePayload newEmp) = (data, Some message) ->
        handleAddEmployee prev newEmp = prev)
  /\ (deleteEmployee id = None ->
      (forall e, In e (handleDeleteEmployee prev id)
                 <-> In e prev /\ Employee.id e <> id)
      /\ forall services b,
           Booking.staffIds b = Some [id] ->
           Booking.staffName
             (enrich services (handleDeleteEmployee prev id) b)
           = "Unassigned")
  /\ (forall message,
        deleteEmployee id = Some message ->
        handleDeleteEmployee prev id = prev).
Proof.
  split; [|split; [|split]].
  - intros data E. unfold handleAddEmployee. rewrite E. reflexivity.
  - intros data message E. unfold handleAddEmployee. rewrite E.
    destruct data; reflexivity.
  - intro E. unfold handleDeleteEmployee. rewrite E. split.
    + intro e. rewrite filter_In, negb_true_iff, String.eqb_neq. reflexivity.
    + intros services b Hb. unfold enrich, staffNamesOf.
      cbn [Booking.staffName]. rewrite Hb. cbn [flat_map].
      destruct (find (fun e => String.eqb (Employee.id e) id)
                     (filter (fun e => negb (String.eqb (Employee.id e) id))
                             prev)) as [e|] eqn:Hfind.
      * exfalso. apply find_some in Hfind. destruct Hfind as [Hin Hid].
        apply filter_In in Hin. destruct Hin as [_ Hne].
        rewrite Hid in Hne. discriminate Hne.
      * reflexivity.
  - intros message E. unfold handleDeleteEmployee. rewrite E. reflexivity.
Qed.

Lemma X21_employee_collection_witness :
  let b := booked "1" "10:00" 60 CONFIRMED in
  @handleAddEmployee acceptingEmployeeStore [] minh
  = [Employee.mk "77" "NV002" "Minh" "" THERAPIST EMP_ACTIVE "0909876543" ""
                 None]
  /\ Booking.staffName
       (enrich [massage60]
               (@handleDeleteEmployee acceptingEmployeeStore [minh] "2") b)
     = "Unassigned".
Proof.
  cbv zeta. split.
  - apply (proj1 (@X21_employee_collection_follows_the_store
                    acceptingEmployeeStore [] minh "2")).
    reflexivity.
  - apply (proj1 (proj2 (proj2
             (@X21_employee_collection_follows_the_store
                acceptingEmployeeStore [minh] minh "2")))).
    + reflexivity.
    + reflexivity.
Defined.

(* ================================================================== *)
(** ** The operations page: who is busy now *)

Lemma coversNow_true (b : Booking.t) (currentMinutes : Z) :
  coversNow b currentMinutes = true <-> inProgressAt b currentMinutes.
Proof.
  unfold coversNow, inProgressAt, inHalfOpen.
  destruct (timeToMinutes (Booking.time b)) as [|s]; cbn.
  - split; [discriminate | intros (s & E & _); discriminate E].
  - rewrite andb_true_iff, Z.leb_le, Z.ltb_lt. split.
    + intros [H1 H2]. exists s. auto.
    + intros (s' & E & H). inversion E. subst s'. exact H.
Qed.

(** A member of staff is shown busy exactly when some booking of today that
    is assigned to them is in progress, or is confirmed or pending with the
    current minute inside its interval; completed and cancelled bookings,
    and bookings of other days, never make them busy; an in-progress booking
    takes precedence in the text, and a free member of staff reads
    "ready". *)
Theorem X22_staff_is_shown_busy_exactly_when
    (bookings : list Booking.t) (todayString : string) (currentMinutes : Z)
    (staffId : string) :
  let status :=
    getStaffStatusDetails bookings todayString currentMinutes staffId in
  (StaffStatus.isBusy status = true
   <-> exists b, In b bookings
                 /\ keepsBusy todayString currentMinutes staffId b)
  /\ ((exists b, In b bookings /\ Booking.date b = todayString
                 /\ assignedTo b staffId /\ Booking.status b = IN_PROGRESS)
      <-> exists time duration,
            StaffStatus.displayText status = WorkingUntilEndOf time duration)
  /\ (StaffStatus.isBusy status = false
      <-> StaffStatus.displayText status = ReadyNow).
Proof.
  cbv zeta. unfold getStaffStatusDetails.
  set (p1 := fun b => String.eqb (Booking.date b) todayString
                      && Ops.isAssigned b staffId
                      && BookingStatus_eqb (Booking.status b) IN_PROGRESS).
  set (p2 := fun b : Booking.t =>
               if negb (String.eqb (Booking.date b) todayString) then false
               else if negb (Ops.isAssigned b staffId)
                       || negb (BookingStatus_eqb (Booking.status b) CONFIRMED)
               then false else coversNow b currentMinutes).
  set (p3 := fun b : Booking.t =>
               if negb (String.eqb (Booking.date b) todayString) then false
               else if negb (Ops.isAssigned b staffId) then false
               else if BookingStatus_eqb (Booking.status b) CANCELLED
                       || BookingStatus_eqb (Booking.status b) COMPLETED
                       || BookingStatus_eqb (Booking.status b) CONFIRMED
                       || BookingStatus_eqb (Booking.status b) IN_PROGRESS
               then false else coversNow b currentMinutes).
  assert (H1 : forall b, p1 b = true
                 <-> Booking.date b = todayString /\ assignedTo b staffId
                     /\ Booking.status b = IN_PROGRESS).
  { intro b. unfold p1.
    rewrite !andb_true_iff, String.eqb_eq, ops_isAssigned_true,
      BookingStatus_eqb_eq. tauto. }
  assert (H2 : forall b, p2 b = true
                 <-> Booking.date b = todayString /\ assignedTo b staffId
                     /\ Booking.status b = CONFIRMED
                     /\ inProgressAt b currentMinutes).
  { intro b. unfold p2.
    rewrite <- String.eqb_eq, <- ops_isAssigned_true, <- BookingStatus_eqb_eq,
      <- coversNow_true.
    destruct (String.eqb _ _), (Ops.isAssigned b staffId),
      (BookingStatus_eqb _ _), (coversNow b currentMinutes);
      cbn; intuition congruence. }
  assert (H3 : forall b, p3 b = true
                 <-> Booking.date b = todayString /\ assignedTo b staffId
                     /\ Booking.status b = PENDING
                     /\ inProgressAt b currentMinutes).
  { intro b. unfold p3.
    rewrite <- String.eqb_eq, <- ops_isAssigned_true, <- coversNow_true.
    destruct (String.eqb _ _), (Ops.isAssigned b staffId),
      (Booking.status b), (coversNow b currentMinutes);
      cbn; intuition congruence. }
  destruct (find p1 bookings) as [b1|] eqn:F1.
  - apply find_some in F1. destruct F1 as [Hin Hp]. apply H1 in Hp.
    cbn [StaffStatus.isBusy StaffStatus.displayText]. split; [|split].
    + split; [|reflexivity]. intros _. exists b1.
      unfold keepsBusy. tauto.
    + split; [intros _; eauto | intros _; exists b1; tauto].
    + split; discriminate.
  - assert (N1 : forall b, In b bookings ->
                   ~ (Booking.date b = todayString /\ assignedTo b staffId
                      /\ Booking.status b = IN_PROGRESS)).
    { intros b Hb Hc. apply H1 in Hc.
      rewrite (find_none _ _ F1 b Hb) in Hc. discriminate Hc. }
    destruct (find p2 bookings) as [b2|] eqn:F2.
    + apply find_some in F2. destruct F2 as [Hin Hp]. apply H2 in Hp.
      cbn [StaffStatus.isBusy StaffStatus.displayText]. split; [|split].
      * split; [|reflexivity]. intros _. exists b2. unfold keepsBusy. tauto.
      * split; [intros (b & Hb & Hc); exfalso; apply (N1 b Hb); tauto
               | intros (t & d & E); discriminate E].
      * split; discriminate.
    + assert (N2 : forall b, In b bookings ->
                     ~ (Booking.date b = todayString /\ assignedTo b staffId
                        /\ Booking.status b = CONFIRMED
                        /\ inProgressAt b currentMinutes)).
      { intros b Hb Hc. apply H2 in Hc.
        rewrite (find_none _ _ F2 b Hb) in Hc. discriminate Hc. }
      destruct (find p3 bookings) as [b3|] eqn:F3.
      * apply find_some in F3. destruct F3 as [Hin Hp]. apply H3 in Hp.
        cbn [StaffStatus.isBusy StaffStatus.displayText]. split; [|split].
        -- split; [|reflexivity]. intros _. exists b3.
           unfold keepsBusy. tauto.
        -- split; [intros (b & Hb & Hc); exfalso; apply (N1 b Hb); tauto
                  | intros (t & d & E); discriminate E].
        -- split; discriminate.
      * assert (N3 : forall b, In b bookings ->
                       ~ (Booking.date b = todayString /\ assignedTo b staffId
                          /\ Booking.status b = PENDING
                          /\ inProgressAt b currentMinutes)).
        { intros b Hb Hc. apply H3 in Hc.
          rewrite (find_none _ _ F3 b Hb) in Hc. discriminate Hc. }
        cbn [StaffStatus.isBusy StaffStatus.displayText]. split; [|split].
        -- split; [discriminate|]. intros (b & Hb & Hd & Ha & Hs). exfalso.
           destruct Hs as [Hs|[[Hs|Hs] Hnow]].
           ++ apply (N1 b Hb). tauto.
           ++ apply (N2 b Hb). tauto.
           ++ apply (N3 b Hb). tauto.
        -- split; [intros (b & Hb & Hc); exfalso; apply (N1 b Hb); tauto
                  | intros (t & d & E); discriminate E].
        -- split; reflexivity.
Qed.
